(** * Crypto ETL pipeline: a shallow embedding of [etl.py]

    The development follows [src/etl.py]: the three stages [extract],
    [transform] and [load_to_sqlite], the driver [run_etl] and the logger
    [log_progress].  Python values are modelled as the code has them:

    - a [float] is an IEEE-754 binary64 number (Rocq's primitive [float]);
    - a [str] is a [string] of ASCII characters, with the ASCII case maps;
    - a [dict] is an insertion-ordered association list;
    - a [DataFrame] is a row count and an ordered list of labelled columns,
      mutated in place by item assignment;
    - an exception is the [Raise] outcome of a computation.

    Everything outside the repository (the price service, the rate file, the
    clock, the availability of [zoneinfo], the database engine) is a field of
    the environment [Env]. *)

From Stdlib Require Import ZArith List String Ascii Bool Lia PeanoNat.
From Stdlib Require Import PrimFloat SpecFloat FloatOps.
Import ListNotations.

#[local] Set Warnings "-inexact-float".

Local Open Scope string_scope.
Local Open Scope list_scope.

(** ** Python strings *)

Module Str.

Definition is_upper (c : ascii) : bool :=
  let n := nat_of_ascii c in (65 <=? n)%nat && (n <=? 90)%nat.

Definition is_lower (c : ascii) : bool :=
  let n := nat_of_ascii c in (97 <=? n)%nat && (n <=? 122)%nat.

Definition is_digit (c : ascii) : bool :=
  let n := nat_of_ascii c in (48 <=? n)%nat && (n <=? 57)%nat.

Definition lower_char (c : ascii) : ascii :=
  if is_upper c then ascii_of_nat (nat_of_ascii c + 32) else c.

Definition upper_char (c : ascii) : ascii :=
  if is_lower c then ascii_of_nat (nat_of_ascii c - 32) else c.

Fixpoint smap (f : ascii -> ascii) (s : string) : string :=
  match s with
  | EmptyString => EmptyString
  | String c s' => String (f c) (smap f s')
  end.

(** [s.lower()] and [s.upper()]. *)
Definition lower : string -> string := smap lower_char.
Definition upper : string -> string := smap upper_char.

Fixpoint sall (p : ascii -> bool) (s : string) : bool :=
  match s with
  | EmptyString => true
  | String c s' => p c && sall p s'
  end.

(** [needle in hay]. *)
Fixpoint contains (needle hay : string) : bool :=
  String.prefix needle hay ||
  match hay with
  | EmptyString => false
  | String _ hay' => contains needle hay'
  end.

End Str.

(** ** Python floats *)

Module Float.

Local Open Scope float_scope.

(** The nearest float of an integer, ties to even (the conversion of an
    [int64] array to [float64], and of a Python [int] in range). *)
Definition of_Z (z : Z) : float :=
  SF2Prim (binary_normalize prec emax z 0 false).

(** The nearest float of [m / d] for positive [m] and [d]. *)
Definition of_ratio (neg : bool) (m d : Z) : float :=
  let '(q, e, l) := SFdiv_core_binary prec emax m 0 d 0 in
  SF2Prim (binary_round_aux prec emax neg q e l).

Definition two52 : float := Eval vm_compute in of_Z (2 ^ 52).

(** [numpy.rint]: the nearest integral float, ties to even, signed like
    its argument. *)
Definition rint (x : float) : float :=
  if abs x <? two52 then
    let r := (abs x + two52) - two52 in
    if get_sign x then - r else r
  else x.

Definition ten8 : float := Eval vm_compute in of_Z (10 ^ 8).

(** [Series.round(8)] on a [float64] column: numpy scales by [10**8],
    rounds to the nearest integer and scales back. *)
Definition round8 (x : float) : float := rint (x * ten8) / ten8.

(** *** [float(s)] for a [str]

    Leading and trailing whitespace is dropped, an underscore may stand
    between two digits, and what is left is a signed [inf], [infinity] or
    [nan] (in any case) or a decimal numeral with an optional fraction and
    an optional exponent.  The value is the nearest float, ties to even;
    a numeral too large is an infinity.  [None] stands for [ValueError]. *)

Definition is_space (c : ascii) : bool :=
  let n := nat_of_ascii c in
  ((9 <=? n)%nat && (n <=? 13)%nat) || ((28 <=? n)%nat && (n <=? 32)%nat).

Fixpoint lstrip (l : list ascii) : list ascii :=
  match l with
  | c :: l' => if is_space c then lstrip l' else l
  | [] => []
  end.

Definition strip (l : list ascii) : list ascii :=
  rev (lstrip (rev (lstrip l))).

Definition is_underscore (c : ascii) : bool := Ascii.eqb c "_".

(** Underscores are allowed only after a digit and before a digit. *)
Fixpoint drop_underscores (prev : ascii) (l : list ascii)
  : option (list ascii) :=
  match l with
  | [] => if is_underscore prev then None else Some []
  | c :: l' =>
      if is_underscore c then
        if Str.is_digit prev then drop_underscores c l' else None
      else if is_underscore prev && negb (Str.is_digit c) then None
      else option_map (cons c) (drop_underscores c l')
  end.

Fixpoint span_digits (l : list ascii) : list ascii * list ascii :=
  match l with
  | c :: l' =>
      if Str.is_digit c
      then let '(d, r) := span_digits l' in (c :: d, r)
      else ([], l)
  | [] => ([], [])
  end.

Definition digit_val (c : ascii) : Z := Z.of_nat (nat_of_ascii c) - 48.

Definition digits_val (d : list ascii) : Z :=
  fold_left (fun acc c => 10 * acc + digit_val c)%Z d 0%Z.

Definition take_sign (l : list ascii) : bool * list ascii :=
  match l with
  | c :: l' =>
      if Ascii.eqb c "-" then (true, l')
      else if Ascii.eqb c "+" then (false, l')
      else (false, l)
  | [] => (false, [])
  end.

Definition is_exp_mark (c : ascii) : bool :=
  Ascii.eqb c "e" || Ascii.eqb c "E".

(** The exponent part: absent, or [e], an optional sign and digits up to
    the end of the text. *)
Definition parse_exponent (l : list ascii) : option Z :=
  match l with
  | [] => Some 0%Z
  | c :: l' =>
      if is_exp_mark c then
        let '(neg, l2) := take_sign l' in
        let '(d, r) := span_digits l2 in
        match d, r with
        | _ :: _, [] => Some (if neg then - digits_val d else digits_val d)%Z
        | _, _ => None
        end
      else None
  end.

(** The nearest float of [m * 10 ^ e] for [m >= 0], signed by [neg]. *)
Definition of_decimal (neg : bool) (m e : Z) : float :=
  match m with
  | Zpos p =>
      if (0 <=? e)%Z
      then SF2Prim (binary_round prec emax neg (p * Z.to_pos (10 ^ e)) 0)
      else of_ratio neg m (10 ^ (- e))
  | _ => if neg then neg_zero else zero
  end.

Definition parse_decimal (neg : bool) (l : list ascii) : option float :=
  let '(ip, r1) := span_digits l in
  let '(fp, r2) :=
    match r1 with
    | c :: r => if Ascii.eqb c "." then span_digits r else ([], r1)
    | [] => ([], [])
    end in
  match ip ++ fp with
  | [] => None
  | ds =>
      match parse_exponent r2 with
      | Some e =>
          Some (of_decimal neg (digits_val ds) (e - Z.of_nat (List.length fp)))
      | None => None
      end
  end.

Definition of_string (s : string) : option float :=
  match drop_underscores "000" (strip (list_ascii_of_string s)) with
  | None => None
  | Some l =>
      let '(neg, body) := take_sign l in
      let word := Str.lower (string_of_list_ascii body) in
      if String.eqb word "inf" || String.eqb word "infinity"
      then Some (if neg then neg_infinity else infinity)
      else if String.eqb word "nan" then Some nan
      else parse_decimal neg body
  end.

End Float.

(** ** Exceptions and outcomes *)

Inductive Exn : Type :=
| AttributeError
| TypeError
| ValueError
| OverflowError
| KeyError.

Inductive Res (A : Type) : Type :=
| Ok (a : A)
| Raise (e : Exn).

Arguments Ok {A} a.
Arguments Raise {A} e.

Definition res_bind {A B} (r : Res A) (k : A -> Res B) : Res B :=
  match r with
  | Ok a => k a
  | Raise e => Raise e
  end.

(** ** Insertion-ordered maps with string keys

    Both a [dict] with [str] keys and the column list of a frame: assigning
    an existing key replaces the value where it stands, a new key goes to
    the end. *)

Section Assoc.
Context {V : Type}.

Fixpoint assoc_get (k : string) (l : list (string * V)) : option V :=
  match l with
  | [] => None
  | (k', v) :: l' => if String.eqb k k' then Some v else assoc_get k l'
  end.

Fixpoint assoc_set (k : string) (v : V) (l : list (string * V))
  : list (string * V) :=
  match l with
  | [] => [(k, v)]
  | (k', v') :: l' =>
      if String.eqb k k' then (k, v) :: l' else (k', v') :: assoc_set k v l'
  end.

Fixpoint assoc_del (k : string) (l : list (string * V))
  : list (string * V) :=
  match l with
  | [] => []
  | (k', v) :: l' =>
      if String.eqb k k' then assoc_del k l' else (k', v) :: assoc_del k l'
  end.

Definition keys (l : list (string * V)) : list string := map fst l.

End Assoc.

(** ** Frames *)

(** A value of an [object] column: text or [None]. *)
Inductive Obj : Type :=
| OStr (s : string)
| ONone.

(** A column with its dtype: [float64] (a missing price is NaN), [int64],
    or [object]. *)
Inductive Series : Type :=
| FloatCol (xs : list float)
| IntCol (zs : list Z)
| ObjCol (os : list Obj).

Definition series_len (col : Series) : nat :=
  match col with
  | FloatCol xs => List.length xs
  | IntCol zs => List.length zs
  | ObjCol os => List.length os
  end.

(** Column labels are [str]; the index is the default [0 .. nrows-1]. *)
Record DataFrame : Type := {
  nrows : nat;
  columns : list (string * Series)
}.

(** [pd.DataFrame()] *)
Definition empty_frame : DataFrame := {| nrows := 0; columns := [] |}.

(** [df.empty]: some axis has length zero. *)
Definition df_empty (df : DataFrame) : bool :=
  (nrows df =? 0)%nat || (List.length (columns df) =? 0)%nat.

Definition labels (df : DataFrame) : list string := keys (columns df).

(** [df[name]] for a label of the frame. *)
Definition getitem (df : DataFrame) (name : string) : option Series :=
  assoc_get name (columns df).

(** [df[name] = col] *)
Definition setitem (df : DataFrame) (name : string) (col : Series)
  : DataFrame :=
  {| nrows := nrows df; columns := assoc_set name col (columns df) |}.

(** [df[name] = value] for a [str]: the value on every row. *)
Definition setitem_scalar (df : DataFrame) (name : string) (value : Obj)
  : DataFrame :=
  setitem df name (ObjCol (repeat value (nrows df))).

(** The frame without the column [name]. *)
Definition without (name : string) (df : DataFrame) : DataFrame :=
  {| nrows := nrows df; columns := assoc_del name (columns df) |}.

(** [column * rate] with [rate] a [float]: the product of floats on a
    numeric column, whose integers are converted first; text and [None] do
    not multiply by a float. *)
Definition scale (rate : float) (col : Series) : Res Series :=
  match col with
  | FloatCol xs => Ok (FloatCol (map (fun x => x * rate)%float xs))
  | IntCol zs => Ok (FloatCol (map (fun z => Float.of_Z z * rate)%float zs))
  | ObjCol [] => Ok (ObjCol [])
  | ObjCol (_ :: _) => Raise TypeError
  end.

(** [column.round(8)]: floats are rounded, other columns are left alone. *)
Definition round_series (col : Series) : Series :=
  match col with
  | FloatCol xs => FloatCol (map Float.round8 xs)
  | _ => col
  end.

(** The largest magnitude a Python [int] may have to convert to [float]:
    from [2^1024 - 2^970] on the nearest float is out of range. *)
Definition int_overflow : Z := 2 ^ 1024 - 2 ^ 970.

(** [float(z)] for an [int]. *)
Definition float_of_int (z : Z) : Res float :=
  if (Z.abs z <? int_overflow)%Z then Ok (Float.of_Z z) else Raise OverflowError.

(** ** The rate file *)

(** A key of the mapping read from the file: the first column is text, or
    was read as integers, as floats (an empty name is NaN) or as booleans. *)
Inductive Key : Type :=
| KStr (s : string)
| KInt (z : Z)
| KFloat (x : float)
| KBool (b : bool).

(** A value of the [Rate] column, by the type the column was read with. *)
Inductive Val : Type :=
| VFloat (x : float)
| VInt (z : Z)
| VBool (b : bool)
| VStr (s : string).

(** [pd.read_csv(path, index_col=0).to_dict()['Rate']]: an exception with
    its text, or the mapping in the order of the file. *)
Inductive CsvRead : Type :=
| ReadFails (msg : string)
| ReadOk (rates : list (Key * Val)).

(** [k.lower()] *)
Definition key_lower (k : Key) : Res string :=
  match k with
  | KStr s => Ok (Str.lower s)
  | KInt _ => Raise AttributeError
  | KFloat _ => Raise AttributeError
  | KBool _ => Raise AttributeError
  end.

(** [{k.lower(): v for k, v in rates.items()}] *)
Fixpoint lower_keys (acc : list (string * Val)) (rates : list (Key * Val))
  : Res (list (string * Val)) :=
  match rates with
  | [] => Ok acc
  | (k, v) :: rates' =>
      res_bind (key_lower k) (fun s => lower_keys (assoc_set s v acc) rates')
  end.

(** [float(rate)]: the exception, if any, is the one the loop catches. *)
Definition py_float (v : Val) : Res float :=
  match v with
  | VFloat x => Ok x
  | VInt z => float_of_int z
  | VBool b => Ok (if b then one else zero)
  | VStr s =>
      match Float.of_string s with
      | Some x => Ok x
      | None => Raise ValueError
      end
  end.

(** ** Timestamps *)

Module Datetime.

(** The zones the program names. *)
Inductive Zone : Type := AsiaKarachi.

(** Minutes east of UTC: Pakistan Standard Time has no daylight saving. *)
Definition utcoffset (z : Zone) : Z :=
  match z with AsiaKarachi => 300%Z end.

Record Wall : Type := {
  year : N; month : N; day : N;
  hour : N; minute : N; second : N; microsecond : N
}.

(** A [datetime]: naive when [tzinfo] is [None]. *)
Record datetime : Type := {
  wall : Wall;
  tzinfo : option Zone
}.

Local Open Scope N_scope.

Definition digit (n : N) : ascii := ascii_of_N (48 + n mod 10).

Definition d2 (n : N) : list ascii := [digit (n / 10); digit n].

Definition d4 (n : N) : list ascii :=
  [digit (n / 1000); digit (n / 100); digit (n / 10); digit n].

Definition d6 (n : N) : list ascii :=
  [digit (n / 100000); digit (n / 10000); digit (n / 1000);
   digit (n / 100); digit (n / 10); digit n].

Definition format_offset (minutes : Z) : list ascii :=
  let a := Z.to_N (Z.abs minutes) in
  (if (minutes <? 0)%Z then "-" else "+")%char
    :: d2 (a / 60) ++ ":"%char :: d2 (a mod 60).

(** [dt.isoformat()]: [YYYY-MM-DDTHH:MM:SS], the microseconds when they
    are not zero, and the offset from UTC when the value has a zone. *)
Definition isoformat (dt : datetime) : string :=
  let w := wall dt in
  string_of_list_ascii
    (d4 (year w) ++ "-"%char :: d2 (month w) ++ "-"%char :: d2 (day w)
     ++ "T"%char :: d2 (hour w) ++ ":"%char :: d2 (minute w)
     ++ ":"%char :: d2 (second w)
     ++ (if microsecond w =? 0 then []
         else "."%char :: d6 (microsecond w))
     ++ match tzinfo dt with
        | None => []
        | Some z => format_offset (utcoffset z)
        end).

(** *** Recognisers for the text of a timestamp *)

Definition all_digits (l : list ascii) : bool := forallb Str.is_digit l.

Definition is_sign (c : ascii) : bool := Ascii.eqb c "+" || Ascii.eqb c "-".

(** [+HH:MM] or [-HH:MM] *)
Definition is_offset (l : list ascii) : bool :=
  match l with
  | [s; h1; h2; c; m1; m2] =>
      is_sign s && all_digits [h1; h2; m1; m2] && Ascii.eqb c ":"
  | _ => false
  end.

(** What may follow the seconds: nothing, a fraction of six digits, an
    offset, or both. *)
Definition is_tail (l : list ascii) : bool :=
  match l with
  | [] => true
  | c :: l' =>
      if Ascii.eqb c "." then
        all_digits (firstn 6 l') && (List.length (firstn 6 l') =? 6)%nat
        && match skipn 6 l' with [] => true | o => is_offset o end
      else is_offset l
  end.

(** The extended ISO-8601 form of a date and time. *)
Definition is_iso8601 (s : string) : bool :=
  match list_ascii_of_string s with
  | y1 :: y2 :: y3 :: y4 :: a :: m1 :: m2 :: b :: dd1 :: dd2 :: t
      :: h1 :: h2 :: c :: n1 :: n2 :: d :: s1 :: s2 :: rest =>
      all_digits [y1; y2; y3; y4; m1; m2; dd1; dd2; h1; h2; n1; n2; s1; s2]
      && Ascii.eqb a "-" && Ascii.eqb b "-" && Ascii.eqb t "T"
      && Ascii.eqb c ":" && Ascii.eqb d ":" && is_tail rest
  | _ => false
  end.

(** The text ends with an offset from UTC: the time is tied to a zone. *)
Definition has_offset (s : string) : bool :=
  let l := list_ascii_of_string s in
  is_offset (skipn (List.length l - 6) l).

End Datetime.

(** ** The environment and the world *)

(** The price service as [extract] sees it: an exception of the request or
    of the conversion, or the frame built from the reply. *)
Inductive ApiReply : Type :=
| ApiFails (msg : string)
| ApiFrame (df : DataFrame).

(** The database: the table stored under a file name and a table name. *)
Definition Store : Type := list (string * DataFrame).

Definition store_key (db_name table_name : string) : string :=
  db_name ++ "/" ++ table_name.

Record Env : Type := {
  (** whether [from zoneinfo import ZoneInfo] succeeded (the data of the
      zone is then taken to be installed) *)
  ZoneInfo : bool;
  (** the wall clock read by [transform], in a zone or in local time *)
  clock : option Datetime.Zone -> Datetime.Wall;
  (** what reading the rate file at a path gives; [None]: no such file *)
  files : string -> option CsvRead;
  (** the reply of the price service *)
  api : ApiReply;
  (** a fault of the database engine: its text and the store it leaves *)
  sql_fault : Store -> option (string * Store)
}.

(** [datetime.now(tz)] *)
Definition datetime_now (env : Env) (tz : option Datetime.Zone)
  : Datetime.datetime :=
  {| Datetime.wall := clock env tz; Datetime.tzinfo := tz |}.

(** The frame the pipeline holds (one object, mutated in place), the lines
    of the log file (each without its time prefix) and the database. *)
Record World : Type := {
  frame : DataFrame;
  log : list string;
  store : Store
}.

Definition M (A : Type) : Type := World -> Res A * World.

Definition ret {A} (a : A) : M A := fun w => (Ok a, w).

Definition bind {A B} (m : M A) (k : A -> M B) : M B :=
  fun w =>
    match m w with
    | (Ok a, w') => k a w'
    | (Raise e, w') => (Raise e, w')
    end.

Definition lift {A} (r : Res A) : M A := fun w => (r, w).

Notation "x <- m ;; k" := (bind m (fun x => k))
  (at level 61, m at next level, right associativity).
Notation "m ;; k" := (bind m (fun _ => k))
  (at level 61, right associativity).

Definition get_frame : M DataFrame := fun w => (Ok (frame w), w).

Definition set_frame (df : DataFrame) : M unit :=
  fun w => (Ok tt, {| frame := df; log := log w; store := store w |}).

Definition get_store : M Store := fun w => (Ok (store w), w).

Definition set_store (s : Store) : M unit :=
  fun w => (Ok tt, {| frame := frame w; log := log w; store := s |}).

Fixpoint for_each {A} (l : list A) (body : A -> M unit) : M unit :=
  match l with
  | [] => ret tt
  | a :: l' => body a ;; for_each l' body
  end.

(** ** The program *)

Definition LOG_PATH : string := "./logs/code_log.txt".
Definition EXCHANGE_CSV : string := "./input/exchange_rate.csv".
Definition DB_NAME : string := "crypto_data.db".
Definition TABLE_NAME : string := "crypto_prices".

(** [log_progress(message)]: one more line in the log, which can always be
    written. *)
Definition log_progress (message : string) : M unit :=
  fun w =>
    (Ok tt, {| frame := frame w; log := log w ++ [message]; store := store w |}).

(** [extract()]: the frame of the reply, or an empty frame. *)
Definition extract (env : Env) : M unit :=
  log_progress "Extract: started" ;;
  match api env with
  | ApiFrame df =>
      set_frame df ;;
      log_progress "Extract: completed successfully"
  | ApiFails e =>
      log_progress ("Extract: failed - " ++ e) ;;
      set_frame empty_frame
  end.

(** [c.lower() == "pkr" or "pkr" in c.lower()] *)
Definition is_pkr (c : string) : bool :=
  String.eqb (Str.lower c) "pkr" || Str.contains "pkr" (Str.lower c).

(** The first label of the frame that names the base currency. *)
Definition find_pkr (cols : list string) : option string := find is_pkr cols.

(** [df[name]] as a step of the program. *)
Definition column (name : string) : M Series :=
  df <- get_frame ;;
  match getitem df name with
  | Some col => ret col
  | None => lift (Raise KeyError)
  end.

(** [df[name] = col] as a step of the program. *)
Definition assign (name : string) (col : Series) : M unit :=
  df <- get_frame ;; set_frame (setitem df name col).

Definition new_col (cur : string) : string := "price_in_" ++ Str.upper cur.

(** The body of the loop over the rates. *)
Definition convert_entry (pkr_col : string) (entry : string * Val) : M unit :=
  let '(cur, rate) := entry in
  match py_float rate with
  | Raise _ => log_progress ("Transform: skipping invalid rate for " ++ cur)
  | Ok rate =>
      prices <- column pkr_col ;;
      product <- lift (scale rate prices) ;;
      assign (new_col cur) (round_series product)
  end.

(** The value written to [last_updated]. *)
Definition last_updated (env : Env) : Datetime.datetime :=
  if ZoneInfo env
  then datetime_now env (Some Datetime.AsiaKarachi)
  else datetime_now env None.

(** The part of [transform] after its checks: the loop over the rates, the
    time stamp and the closing line of the log. *)
Definition conversion (env : Env) (pkr_col : string)
  (rates : list (string * Val)) : M unit :=
  for_each rates (convert_entry pkr_col) ;;
  df <- get_frame ;;
  set_frame
    (setitem_scalar df "last_updated"
       (OStr (Datetime.isoformat (last_updated env)))) ;;
  log_progress "Transform: completed".

(** [transform(df, csv_path)] on the frame of the world; the frame it
    returns is that same object, in its final state. *)
Definition transform (env : Env) (csv_path : string) : M unit :=
  log_progress "Transform: started" ;;
  df <- get_frame ;;
  if df_empty df then
    log_progress "Transform: aborted (empty DataFrame)"
  else
    match files env csv_path with
    | None =>
        log_progress ("Transform: exchange CSV not found at " ++ csv_path)
    | Some (ReadFails e) =>
        log_progress ("Transform: failed to read CSV - " ++ e)
    | Some (ReadOk raw) =>
        rates <- lift (lower_keys [] raw) ;;
        match find_pkr (labels df) with
        | None => log_progress "Transform: PKR column not found in DataFrame"
        | Some pkr_col => conversion env pkr_col rates
        end
    end.

(** [load_to_sqlite(df, db_name, table_name)] for the frame of the world. *)
Definition load_to_sqlite (env : Env) (db_name table_name : string) : M unit :=
  log_progress "Load: started" ;;
  df <- get_frame ;;
  if df_empty df then
    log_progress "Load: aborted (empty DataFrame)"
  else
    s <- get_store ;;
    match sql_fault env s with
    | None =>
        set_store (assoc_set (store_key db_name table_name) df s) ;;
        log_progress
          ("Load: completed. Data written to " ++ db_name ++ " -> " ++ table_name)
    | Some (e, rest) =>
        set_store rest ;;
        log_progress ("Load: failed - " ++ e)
    end.

(** [run_etl()] *)
Definition run_etl (env : Env) : M unit :=
  extract env ;;
  transform env EXCHANGE_CSV ;;
  load_to_sqlite env DB_NAME TABLE_NAME.

(** The world after more lines of the log. *)
Definition logged (w : World) (lines : list string) : World :=
  {| frame := frame w; log := log w ++ lines; store := store w |}.

(** The text [transform] writes on every row of [last_updated]. *)
Definition stamp (env : Env) : Obj :=
  OStr (Datetime.isoformat (last_updated env)).

(** A call of [transform] on a frame [df], in a world with nothing else. *)
Definition world_of (df : DataFrame) : World :=
  {| frame := df; log := []; store := [] |}.

(** ** Frames that [extract] produces

    [extract] returns [pd.DataFrame()] on failure and otherwise a frame
    whose first column, [crypto], holds the asset names and whose other
    columns are labelled by the lowercase currency codes of the reply and
    hold its prices. *)

(** A currency code as the service names it: lowercase letters. *)
Definition currency_code (s : string) : bool :=
  negb (String.eqb s "") && Str.sall Str.is_lower s.

(** A column of numbers. *)
Definition numeric (col : Series) : bool :=
  match col with
  | FloatCol _ => true
  | IntCol _ => true
  | ObjCol _ => false
  end.

Definition is_str (o : Obj) : bool :=
  match o with
  | OStr _ => true
  | ONone => false
  end.

(** A column of text. *)
Definition is_text (col : Series) : bool :=
  match col with
  | ObjCol os => forallb is_str os
  | _ => false
  end.

Fixpoint distinct (l : list string) : bool :=
  match l with
  | [] => true
  | k :: l' => negb (existsb (String.eqb k) l') && distinct l'
  end.

Definition quote_column (n : nat) (col : string * Series) : bool :=
  currency_code (fst col) && numeric (snd col)
  && (series_len (snd col) =? n)%nat.

Definition is_quote_table (df : DataFrame) : bool :=
  match columns df with
  | [] => (nrows df =? 0)%nat
  | (id, ids) :: quotes =>
      String.eqb id "crypto" && is_text ids
      && (series_len ids =? nrows df)%nat
      && forallb (quote_column (nrows df)) quotes
      && distinct (id :: keys quotes)
  end.

(** The prices of a numeric column, row by row. *)
Definition prices_of (col : Series) : list float :=
  match col with
  | FloatCol xs => xs
  | IntCol zs => map Float.of_Z zs
  | ObjCol _ => []
  end.

(** [(prices * rate).round(8)] on a numeric column. *)
Definition converted (rate : float) (prices : Series) : Series :=
  FloatCol (map (fun x => Float.round8 (x * rate)%float) (prices_of prices)).

(** The columns the loop assigns, in order, from the column [prices]. *)
Definition assignments (prices : Series) (rates : list (string * Val))
  : list (string * Series) :=
  flat_map
    (fun entry =>
       match py_float (snd entry) with
       | Ok r => [(new_col (fst entry), converted r prices)]
       | Raise _ => []
       end) rates.

(** The lines the loop logs. *)
Definition warnings (rates : list (string * Val)) : list string :=
  flat_map
    (fun entry =>
       match py_float (snd entry) with
       | Ok _ => []
       | Raise _ =>
           [("Transform: skipping invalid rate for " ++ fst entry)%string]
       end) rates.

Definition assign_all (l : list (string * Series)) (cols : list (string * Series))
  : list (string * Series) :=
  fold_left (fun acc kv => assoc_set (fst kv) (snd kv) acc) l cols.

(** A key of the rate table is a lowercased name. *)
Definition lowered (k : string) : Prop := exists s, k = Str.lower s.

(** Every character. *)
Definition all_chars : list ascii := map ascii_of_nat (seq 0 256).

(** What the specification asks of [last_updated]: one ISO-8601 text, with
    its offset from UTC, on every row. *)
Definition zoned_stamp (df : DataFrame) : Prop :=
  exists s,
    getitem df "last_updated" = Some (ObjCol (repeat (OStr s) (nrows df))) /\
    Datetime.is_iso8601 s = true /\ Datetime.has_offset s = true.

(** ** Sample inputs *)

Definition sample_wall : Datetime.Wall :=
  {| Datetime.year := 2025; Datetime.month := 3; Datetime.day := 9;
     Datetime.hour := 14; Datetime.minute := 5; Datetime.second := 7;
     Datetime.microsecond := 0 |}.

(** An environment with the rate file [csv] at the configured path (and no
    other file), the reply [reply] and a database without faults. *)
Definition sample_env (zone : bool) (csv : option CsvRead) (reply : ApiReply)
  : Env :=
  {| ZoneInfo := zone;
     clock := fun _ => sample_wall;
     files := fun p => if String.eqb p EXCHANGE_CSV then csv else None;
     api := reply;
     sql_fault := fun _ => None |}.

(** One quote: bitcoin at a million rupees. *)
Definition bitcoin_frame : DataFrame :=
  {| nrows := 1;
     columns := [("crypto", ObjCol [OStr "bitcoin"]);
                 ("pkr", IntCol [1000000%Z])] |}.

(** The rate file [Currency,Rate / USD,0.0036]. *)
Definition usd_rates : CsvRead := ReadOk [(KStr "USD", VFloat 0.0036)].

(** The rate file [Currency,Rate / USD,abc / EUR,0.0033]: with one cell
    that is no number the whole column is read as text. *)
Definition mixed_rates : CsvRead :=
  ReadOk [(KStr "USD", VStr "abc"); (KStr "EUR", VStr "0.0033")].

(** The rate file [Currency,Rate / 1,0.0036]: the first column is read as
    integers. *)
Definition numbered_rates : CsvRead := ReadOk [(KInt 1, VFloat 0.0036)].

(** A world whose database already holds a table. *)
Definition stored_world (df : DataFrame) : World :=
  {| frame := df; log := [];
     store := [(store_key DB_NAME TABLE_NAME, bitcoin_frame)] |}.

(** ** The dashboard ([app.py]) *)

(** What the page shows after the button [Run ETL now]: [st.success],
    [st.write(f"Rows: {len(df)}")] and [st.error]. *)
Inductive Notice : Type :=
| Success (text : string)
| Rows (n : nat)
| Failure (text : string).

(** The handler of the button: the run, then the report on the frame it
    returned. *)
Definition run_button (env : Env) : M (list Notice) :=
  run_etl env ;;
  df <- get_frame ;;
  ret (if df_empty df
       then [Failure "ETL run failed or returned no data!"]
       else [Success "ETL run completed"; Rows (nrows df)]).

(** ** Vocabulary of the further properties *)




(** What every step of the program keeps: the rows, the database, the
    lines already logged and the columns already there, in their order. *)
Definition grows (w w' : World) : Prop :=
  nrows (frame w') = nrows (frame w) /\
  store w' = store w /\
  (exists lines, log w' = log w ++ lines) /\
  (exists added, labels (frame w') = labels (frame w) ++ added).

(** A frame whose base column is text. *)
Definition text_frame : DataFrame :=
  {| nrows := 1;
     columns := [("crypto", ObjCol [OStr "bitcoin"]);
                 ("pkr", ObjCol [OStr "n/a"])] |}.


(** * Properties *)

(** ** Floats, by example *)

Example rint_ties_to_even :
  map Float.rint [0.5; 1.5; 2.5; -0.5; -1.5; 4503599627370495.5]%float
  = [0; 2; 2; -0; -2; 4503599627370496]%float.
Proof. reflexivity. Qed.

Example round8_examples :
  map Float.round8 [1000000 * 0.0036; 0.123456785; 1.5e-8; -0.3; infinity]%float
  = [3600; 0.12345678; 1e-8; -0.3; infinity]%float.
Proof. reflexivity. Qed.

Example float_of_text :
  map Float.of_string
    ["0.0036"; " 1e-3 "; "1_000.5"; "-.5E1"; "1e400"; "-Infinity";
     "9007199254740993"; "abc"; ""; "1e"; "1__0"; "0x10"; "1,5"]
  = [Some 0.0036; Some 0.001; Some 1000.5; Some (-5); Some infinity;
     Some neg_infinity; Some 9007199254740992; None; None; None; None; None;
     None]%float.
Proof. reflexivity. Qed.

Example float_of_rate_values :
  map py_float [VFloat 0.5; VInt 2; VBool true; VStr "0.25"; VStr "n/a"]
  = [Ok 0.5; Ok 2; Ok 1; Ok 0.25; Raise ValueError]%float.
Proof. reflexivity. Qed.

(** ** Insertion-ordered maps *)

Section AssocFacts.
Context {V : Type}.
Implicit Types (l : list (string * V)) (k : string) (v : V).

Lemma assoc_get_set_same k v l : assoc_get k (assoc_set k v l) = Some v.
Proof.
  induction l as [|[k' v'] l IH]; simpl.
  - now rewrite String.eqb_refl.
  - destruct (String.eqb k k') eqn:E; simpl.
    + now rewrite String.eqb_refl.
    + now rewrite E.
Qed.

Lemma assoc_get_set_other k k' v l :
  k <> k' -> assoc_get k (assoc_set k' v l) = assoc_get k l.
Proof.
  intros Hne. induction l as [|[k2 v2] l IH]; simpl.
  - apply String.eqb_neq in Hne. now rewrite Hne.
  - destruct (String.eqb k' k2) eqn:E; simpl.
    + apply String.eqb_eq in E. subst k2.
      apply String.eqb_neq in Hne. now rewrite Hne.
    + now rewrite IH.
Qed.

Lemma assoc_get_none k l : assoc_get k l = None <-> ~ In k (keys l).
Proof.
  induction l as [|[k' v'] l IH]; simpl.
  - tauto.
  - destruct (String.eqb k k') eqn:E.
    + apply String.eqb_eq in E. subst. split; [discriminate | tauto].
    + apply String.eqb_neq in E. rewrite IH. split.
      * intros H [H1 | H1]; [congruence | tauto].
      * tauto.
Qed.

Lemma assoc_get_in k v l : assoc_get k l = Some v -> In (k, v) l.
Proof.
  induction l as [|[k' v'] l IH]; simpl; [discriminate|].
  destruct (String.eqb k k') eqn:E.
  - apply String.eqb_eq in E. intros [= <-]. subst. now left.
  - auto.
Qed.

Lemma assoc_set_absent k v l :
  assoc_get k l = None -> assoc_set k v l = l ++ [(k, v)].
Proof.
  induction l as [|[k' v'] l IH]; simpl; [reflexivity|].
  destruct (String.eqb k k'); [discriminate|].
  intros H. now rewrite IH.
Qed.

Lemma assoc_set_app_r k v l e :
  assoc_get k l = None -> assoc_set k v (l ++ e) = l ++ assoc_set k v e.
Proof.
  induction l as [|[k' v'] l IH]; simpl; [reflexivity|].
  destruct (String.eqb k k'); [discriminate|].
  intros H. now rewrite IH.
Qed.

Lemma assoc_set_same k v l : assoc_get k l = Some v -> assoc_set k v l = l.
Proof.
  induction l as [|[k' v'] l IH]; simpl; [discriminate|].
  destruct (String.eqb k k') eqn:E.
  - apply String.eqb_eq in E. intros [= <-]. now subst.
  - intros H. now rewrite IH.
Qed.

Lemma assoc_set_not_nil k v l : assoc_set k v l <> [].
Proof.
  destruct l as [|[k' v'] l]; simpl; [discriminate|].
  destruct (String.eqb k k'); discriminate.
Qed.

Lemma keys_assoc_set k v l :
  keys (assoc_set k v l)
  = match assoc_get k l with Some _ => keys l | None => keys l ++ [k] end.
Proof.
  induction l as [|[k' v'] l IH]; simpl; [reflexivity|].
  destruct (String.eqb k k') eqn:E; simpl.
  - apply String.eqb_eq in E. now subst.
  - rewrite IH. now destruct (assoc_get k l).
Qed.

Lemma assoc_del_set_same k v l :
  assoc_del k (assoc_set k v l) = assoc_del k l.
Proof.
  induction l as [|[k' v'] l IH]; simpl.
  - now rewrite String.eqb_refl.
  - destruct (String.eqb k k') eqn:E; simpl.
    + now rewrite String.eqb_refl.
    + now rewrite E, IH.
Qed.

Lemma assoc_del_set_other k k' v l :
  k <> k' ->
  assoc_get k' (assoc_del k l) = assoc_get k' l /\
  assoc_del k (assoc_set k' v l) = assoc_set k' v (assoc_del k l).
Proof.
  intros Hne.
  assert (Hkk : String.eqb k k' = false) by now apply String.eqb_neq.
  induction l as [|[k2 v2] l [IH1 IH2]]; simpl.
  - now rewrite Hkk.
  - destruct (String.eqb k k2) eqn:E1; destruct (String.eqb k' k2) eqn:E2;
      try (apply String.eqb_eq in E1, E2; congruence);
      simpl; rewrite ?E1, ?E2, ?Hkk; simpl; rewrite ?E1, ?E2, ?IH1, ?IH2;
      split; reflexivity.
Qed.

End AssocFacts.

(** ** Runs of assignments *)

Lemma assign_all_cons kv l cols :
  assign_all (kv :: l) cols = assign_all l (assoc_set (fst kv) (snd kv) cols).
Proof. reflexivity. Qed.

Lemma assign_all_app l1 l2 cols :
  assign_all (l1 ++ l2) cols = assign_all l2 (assign_all l1 cols).
Proof. unfold assign_all. now rewrite fold_left_app. Qed.

Lemma get_assign_all_out k l cols :
  ~ In k (keys l) -> assoc_get k (assign_all l cols) = assoc_get k cols.
Proof.
  revert cols. induction l as [|[k' v'] l IH]; intros cols Hk; [reflexivity|].
  rewrite assign_all_cons, IH by (simpl in Hk; tauto).
  apply assoc_get_set_other. simpl in Hk. intros ->. tauto.
Qed.

Lemma get_assign_all_in k v l cols :
  NoDup (keys l) -> In (k, v) l -> assoc_get k (assign_all l cols) = Some v.
Proof.
  revert cols. induction l as [|[k' v'] l IH]; intros cols Hnd Hin; [easy|].
  simpl in Hnd. inversion Hnd as [|? ? Hk' Hnd']; subst.
  rewrite assign_all_cons. destruct Hin as [[= -> ->] | Hin].
  - rewrite get_assign_all_out by assumption. apply assoc_get_set_same.
  - now apply IH.
Qed.

Lemma assign_all_fixed l cols :
  (forall k v, In (k, v) l -> assoc_get k cols = Some v) ->
  assign_all l cols = cols.
Proof.
  induction l as [|[k v] l IH]; intros H; [reflexivity|].
  rewrite assign_all_cons. simpl.
  rewrite assoc_set_same by (apply H; now left).
  apply IH. intros k' v' Hin. apply H. now right.
Qed.

Lemma assign_all_idem l cols :
  NoDup (keys l) -> assign_all l (assign_all l cols) = assign_all l cols.
Proof.
  intros Hnd. apply assign_all_fixed.
  intros k v Hin. now apply get_assign_all_in.
Qed.

Lemma assign_all_app_r l cols extra :
  (forall k, In k (keys l) -> assoc_get k cols = None) ->
  assign_all l (cols ++ extra) = cols ++ assign_all l extra.
Proof.
  revert extra. induction l as [|[k v] l IH]; intros extra H; [reflexivity|].
  rewrite !assign_all_cons. simpl.
  rewrite assoc_set_app_r by (apply H; now left).
  apply IH. intros k' Hk'. apply H. now right.
Qed.

Lemma del_assign_all k l cols :
  ~ In k (keys l) ->
  assoc_del k (assign_all l cols) = assign_all l (assoc_del k cols).
Proof.
  revert cols. induction l as [|[k' v'] l IH]; intros cols Hk; [reflexivity|].
  assert (Hne : k <> k') by (simpl in Hk; intros ->; tauto).
  rewrite !assign_all_cons, IH by (simpl in Hk; tauto). simpl. f_equal.
  now apply assoc_del_set_other.
Qed.

Lemma keys_assign_all k l cols :
  In k (keys (assign_all l cols)) -> In k (keys cols) \/ In k (keys l).
Proof.
  revert cols. induction l as [|[k' v'] l IH]; intros cols H; [now left|].
  rewrite assign_all_cons in H. apply IH in H. simpl in *.
  destruct H as [H | H]; [|tauto].
  rewrite keys_assoc_set in H. destruct (assoc_get k' cols); [tauto|].
  apply in_app_or in H. simpl in H. tauto.
Qed.

Lemma assign_all_not_nil l cols : cols <> [] -> assign_all l cols <> [].
Proof.
  revert cols. induction l as [|[k v] l IH]; intros cols H; [assumption|].
  rewrite assign_all_cons. apply IH, assoc_set_not_nil.
Qed.

Lemma find_keys_assoc_set {V} (p : string -> bool) c k (v : V) l :
  find p (keys l) = Some c -> find p (keys (assoc_set k v l)) = Some c.
Proof.
  intros H. rewrite keys_assoc_set. destruct (assoc_get k l); [assumption|].
  unfold keys in *. induction (map fst l) as [|a m IH]; simpl in *; [discriminate|].
  destruct (p a); auto.
Qed.

Lemma find_keys_assign_all (p : string -> bool) c l cols :
  find p (keys cols) = Some c -> find p (keys (assign_all l cols)) = Some c.
Proof.
  revert cols. induction l as [|[k v] l IH]; intros cols H; [assumption|].
  rewrite assign_all_cons. now apply IH, find_keys_assoc_set.
Qed.

(** ** Case maps *)

Lemma in_all_chars (c : ascii) : In c all_chars.
Proof.
  unfold all_chars. rewrite <- (ascii_nat_embedding c).
  apply in_map, in_seq. pose proof (nat_ascii_bounded c). lia.
Qed.

Lemma forallb_all_chars (p : ascii -> bool) :
  forallb p all_chars = true -> forall c, p c = true.
Proof.
  intros H c. rewrite forallb_forall in H. apply H, in_all_chars.
Qed.

(** On lowercased characters the upper case map loses nothing. *)
Lemma upper_lower_char_inj a b :
  Str.upper_char (Str.lower_char a) = Str.upper_char (Str.lower_char b) ->
  Str.lower_char a = Str.lower_char b.
Proof.
  pose (p := fun a b =>
    implb (Ascii.eqb (Str.upper_char (Str.lower_char a))
                     (Str.upper_char (Str.lower_char b)))
          (Ascii.eqb (Str.lower_char a) (Str.lower_char b))).
  assert (H : forallb (fun a => forallb (p a) all_chars) all_chars = true)
    by (vm_compute; reflexivity).
  intros E.
  pose proof (forallb_all_chars _ (forallb_all_chars _ H a) b) as Hab.
  unfold p in Hab. apply Ascii.eqb_eq in E. rewrite E in Hab.
  now apply Ascii.eqb_eq.
Qed.

Lemma upper_lower_inj a b :
  Str.upper (Str.lower a) = Str.upper (Str.lower b) ->
  Str.lower a = Str.lower b.
Proof.
  revert b. induction a as [|c a IH]; intros [|d b]; simpl; try discriminate.
  - reflexivity.
  - intros [= Hc Hs]. apply upper_lower_char_inj in Hc. apply IH in Hs.
    unfold Str.lower in *. simpl. now rewrite Hc, Hs.
Qed.

Lemma new_col_lower_inj a b :
  new_col (Str.lower a) = new_col (Str.lower b) -> Str.lower a = Str.lower b.
Proof.
  unfold new_col. simpl. intros [= H]. now apply upper_lower_inj.
Qed.

Lemma new_col_not_code cur : currency_code (new_col cur) = false.
Proof. reflexivity. Qed.

Lemma new_col_not_stamp cur : new_col cur <> "last_updated".
Proof. unfold new_col. simpl. discriminate. Qed.

(** ** The rate table *)

Lemma nodup_keys_assoc_set {V} k (v : V) l :
  NoDup (keys l) -> NoDup (keys (assoc_set k v l)).
Proof.
  intros H. rewrite keys_assoc_set. destruct (assoc_get k l) eqn:E; [assumption|].
  apply assoc_get_none in E. apply NoDup_app; auto.
  - constructor; [easy | constructor].
  - intros x Hx [<- | []]. contradiction.
Qed.

Lemma forall_keys_assoc_set {V} (P : string -> Prop) k (v : V) l :
  P k -> Forall P (keys l) -> Forall P (keys (assoc_set k v l)).
Proof.
  intros Hk H. rewrite keys_assoc_set. destruct (assoc_get k l); [assumption|].
  apply Forall_app. split; [assumption | now constructor].
Qed.

Lemma lower_keys_inv acc raw rates :
  lower_keys acc raw = Ok rates ->
  NoDup (keys acc) -> Forall lowered (keys acc) ->
  NoDup (keys rates) /\ Forall lowered (keys rates).
Proof.
  revert acc. induction raw as [|[k v] raw IH]; simpl; intros acc H Hnd Hlow.
  - injection H as <-. now split.
  - destruct k as [s| | |]; simpl in H; try discriminate.
    apply IH in H; [assumption | now apply nodup_keys_assoc_set |].
    apply forall_keys_assoc_set; [now exists s | assumption].
Qed.

Lemma rate_names_nodup raw rates :
  lower_keys [] raw = Ok rates -> NoDup (map new_col (keys rates)).
Proof.
  intros H. apply lower_keys_inv in H; [|constructor|constructor].
  destruct H as [Hnd Hlow]. induction (keys rates) as [|k ks IH]; simpl.
  - constructor.
  - inversion Hnd as [|? ? Hk Hnd']; inversion Hlow as [|? ? Hk1 Hlow']; subst.
    constructor; [|now apply IH].
    intros Hin. apply in_map_iff in Hin. destruct Hin as [k' [E Hk']].
    rewrite Forall_forall in Hlow'. destruct (Hlow' _ Hk') as [s' ->].
    destruct Hk1 as [s ->]. apply new_col_lower_inj in E.
    rewrite <- E in Hk. contradiction.
Qed.

Lemma keys_assignments prices rates k :
  In k (keys (assignments prices rates)) -> In k (map new_col (keys rates)).
Proof.
  induction rates as [|[cur v] rates IH]; simpl; [easy|].
  unfold keys in *. rewrite map_app, in_app_iff.
  destruct (py_float v); simpl; tauto.
Qed.

Lemma assignments_nodup prices rates :
  NoDup (map new_col (keys rates)) -> NoDup (keys (assignments prices rates)).
Proof.
  induction rates as [|[cur v] rates IH]; simpl; intros H; [constructor|].
  inversion H as [|? ? Hk Hnd]; subst. unfold keys in *. rewrite map_app.
  destruct (py_float v); simpl; [|now apply IH].
  constructor; [|now apply IH].
  intros Hin. apply Hk. now apply (keys_assignments prices).
Qed.


(** ** Columns *)

Lemma scale_numeric rate prices :
  numeric prices = true ->
  scale rate prices
  = Ok (FloatCol (map (fun x => x * rate)%float (prices_of prices))).
Proof.
  destruct prices as [xs|zs|os]; simpl; try discriminate; intros _.
  - reflexivity.
  - now rewrite map_map.
Qed.

Lemma converted_numeric rate prices : numeric (converted rate prices) = true.
Proof. reflexivity. Qed.

(** ** The loop over the rates *)

Ltac run :=
  cbv [bind ret lift column assign get_frame set_frame get_store set_store
       log_progress]; simpl.

Lemma frame_eta (df : DataFrame) :
  {| nrows := nrows df; columns := columns df |} = df.
Proof. now destruct df. Qed.

Lemma convert_entry_spec base prices entry w :
  getitem (frame w) base = Some prices ->
  numeric prices = true ->
  convert_entry base entry w
  = (Ok tt,
     {| frame := {| nrows := nrows (frame w);
                    columns := assign_all (assignments prices [entry])
                                 (columns (frame w)) |};
        log := log w ++ warnings [entry];
        store := store w |}).
Proof.
  intros Hget Hnum. destruct entry as [cur v]. destruct w as [df lg st].
  unfold convert_entry, assignments, warnings, getitem in *. simpl in *.
  destruct (py_float v) as [r|e]; run.
  - unfold getitem. rewrite Hget. run. rewrite (scale_numeric _ _ Hnum). simpl.
    unfold converted, setitem. now rewrite map_map, app_nil_r.
  - now rewrite frame_eta.
Qed.

Lemma assignments_cons prices entry rates :
  assignments prices (entry :: rates)
  = assignments prices [entry] ++ assignments prices rates.
Proof. unfold assignments. simpl. now rewrite app_nil_r. Qed.

Lemma warnings_cons entry rates :
  warnings (entry :: rates) = warnings [entry] ++ warnings rates.
Proof. unfold warnings. simpl. now rewrite app_nil_r. Qed.

Lemma for_each_cons {A} (a : A) l body w :
  for_each (a :: l) body w
  = match body a w with
    | (Ok _, w') => for_each l body w'
    | (Raise e, w') => (Raise e, w')
    end.
Proof. reflexivity. Qed.

(** The loop when no assigned label is the base column's own: the base
    column keeps its prices and every column comes from them. *)
Lemma loop_spec base prices rates w :
  getitem (frame w) base = Some prices ->
  numeric prices = true ->
  ~ In base (keys (assignments prices rates)) ->
  for_each rates (convert_entry base) w
  = (Ok tt,
     {| frame := {| nrows := nrows (frame w);
                    columns := assign_all (assignments prices rates)
                                 (columns (frame w)) |};
        log := log w ++ warnings rates;
        store := store w |}).
Proof.
  revert w. induction rates as [|entry rates IH]; intros w Hget Hnum Hbase.
  - destruct w as [df lg st]. simpl. unfold ret. simpl.
    now rewrite frame_eta, app_nil_r.
  - rewrite assignments_cons in *. rewrite warnings_cons.
    unfold keys in Hbase. rewrite map_app, in_app_iff in Hbase.
    rewrite for_each_cons.
    rewrite (convert_entry_spec base prices entry w Hget Hnum).
    rewrite IH; cbn [frame log store nrows columns].
    + now rewrite assign_all_app, app_assoc.
    + unfold getitem. cbn [frame columns].
      rewrite get_assign_all_out by tauto. exact Hget.
    + assumption.
    + tauto.
Qed.

(** The loop on a numeric base column always runs to its end. *)
Lemma loop_runs base rates : forall w prices,
  getitem (frame w) base = Some prices ->
  numeric prices = true ->
  exists w',
    for_each rates (convert_entry base) w = (Ok tt, w') /\
    nrows (frame w') = nrows (frame w) /\ store w' = store w /\
    exists prices',
      getitem (frame w') base = Some prices' /\ numeric prices' = true.
Proof.
  induction rates as [|entry rates IH]; intros w prices Hget Hnum.
  - exists w. repeat split; eauto.
  - rewrite for_each_cons.
    rewrite (convert_entry_spec base prices entry w Hget Hnum).
    set (w1 := {| frame := _ |}).
    assert (H1 : exists p, getitem (frame w1) base = Some p /\ numeric p = true).
    { unfold w1, getitem, assignments. simpl. destruct entry as [cur v]. simpl.
      destruct (py_float v) as [r|e]; simpl; [|eauto].
      destruct (string_dec base (new_col cur)) as [->|Hne].
      - rewrite assoc_get_set_same. eauto using converted_numeric.
      - rewrite assoc_get_set_other by assumption. eauto. }
    destruct H1 as [p [Hp Hpn]].
    destruct (IH w1 p Hp Hpn) as [w' [Hrun [Hn [Hs Hb]]]].
    exists w'. repeat split; assumption.
Qed.

(** ** The branches of [transform] *)

Lemma transform_empty env path w :
  df_empty (frame w) = true ->
  transform env path w
  = (Ok tt, logged w ["Transform: started";
                      "Transform: aborted (empty DataFrame)"]).
Proof.
  intros H. unfold transform. run. rewrite H. run.
  unfold logged. now rewrite <- app_assoc.
Qed.

Lemma transform_missing env path w :
  df_empty (frame w) = false -> files env path = None ->
  transform env path w
  = (Ok tt, logged w ["Transform: started";
                      ("Transform: exchange CSV not found at " ++ path)%string]).
Proof.
  intros H Hf. unfold transform. run. rewrite H, Hf. run.
  unfold logged. now rewrite <- app_assoc.
Qed.

Lemma transform_unreadable env path w e :
  df_empty (frame w) = false -> files env path = Some (ReadFails e) ->
  transform env path w
  = (Ok tt, logged w ["Transform: started";
                      ("Transform: failed to read CSV - " ++ e)%string]).
Proof.
  intros H Hf. unfold transform. run. rewrite H, Hf. run.
  unfold logged. now rewrite <- app_assoc.
Qed.

Lemma transform_bad_key env path w raw e :
  df_empty (frame w) = false -> files env path = Some (ReadOk raw) ->
  lower_keys [] raw = Raise e ->
  transform env path w = (Raise e, logged w ["Transform: started"]).
Proof.
  intros H Hf Hk. unfold transform. run. rewrite H, Hf. run. now rewrite Hk.
Qed.

Lemma transform_no_pkr env path w raw rates :
  df_empty (frame w) = false -> files env path = Some (ReadOk raw) ->
  lower_keys [] raw = Ok rates -> find_pkr (labels (frame w)) = None ->
  transform env path w
  = (Ok tt, logged w ["Transform: started";
                      "Transform: PKR column not found in DataFrame"]).
Proof.
  intros H Hf Hk Hp. unfold transform. run. rewrite H, Hf. run.
  rewrite Hk, Hp. run. unfold logged. now rewrite <- app_assoc.
Qed.

Lemma transform_conversion env path w raw rates base :
  df_empty (frame w) = false -> files env path = Some (ReadOk raw) ->
  lower_keys [] raw = Ok rates -> find_pkr (labels (frame w)) = Some base ->
  transform env path w
  = conversion env base rates (logged w ["Transform: started"]).
Proof.
  intros H Hf Hk Hp. unfold transform. run. rewrite H, Hf. run.
  now rewrite Hk, Hp.
Qed.

(** The conversion when no assigned label is the base column's own. *)
Lemma conversion_spec env base prices rates w :
  getitem (frame w) base = Some prices ->
  numeric prices = true ->
  ~ In base (keys (assignments prices rates)) ->
  conversion env base rates w
  = (Ok tt,
     {| frame :=
          setitem_scalar
            {| nrows := nrows (frame w);
               columns := assign_all (assignments prices rates)
                            (columns (frame w)) |}
            "last_updated" (stamp env);
        log := log w ++ warnings rates ++ ["Transform: completed"];
        store := store w |}).
Proof.
  intros Hget Hnum Hbase. unfold conversion. unfold bind at 1.
  rewrite (loop_spec base prices rates w Hget Hnum Hbase). run.
  now rewrite <- app_assoc.
Qed.

(** The conversion on a numeric base column returns, with the stamp on
    every row. *)
Lemma conversion_runs env base prices rates w :
  getitem (frame w) base = Some prices ->
  numeric prices = true ->
  exists w',
    conversion env base rates w = (Ok tt, w') /\
    nrows (frame w') = nrows (frame w) /\ store w' = store w /\
    getitem (frame w') "last_updated"
    = Some (ObjCol (repeat (stamp env) (nrows (frame w)))).
Proof.
  intros Hget Hnum.
  destruct (loop_runs base rates w prices Hget Hnum)
    as [w1 [Hrun [Hn [Hs _]]]].
  unfold conversion. unfold bind at 1. rewrite Hrun. run.
  eexists. split; [reflexivity|]. simpl. repeat split; try assumption.
  unfold getitem, setitem_scalar. simpl.
  now rewrite assoc_get_set_same, Hn.
Qed.

(** ** Frames of [extract] *)

Lemma in_keys_get {V} k (l : list (string * V)) :
  In k (keys l) -> exists v, assoc_get k l = Some v /\ In (k, v) l.
Proof.
  intros H. destruct (assoc_get k l) as [v|] eqn:E.
  - exists v. split; [reflexivity | now apply assoc_get_in].
  - apply assoc_get_none in E. contradiction.
Qed.

Lemma quote_table_columns df id ids quotes :
  is_quote_table df = true -> columns df = (id, ids) :: quotes ->
  id = "crypto" /\
  forall c col, In (c, col) quotes ->
    currency_code c = true /\ numeric col = true.
Proof.
  unfold is_quote_table. intros H E. rewrite E in H.
  apply andb_prop in H. destruct H as [H _].
  apply andb_prop in H. destruct H as [H Hq].
  apply andb_prop in H. destruct H as [H _].
  apply andb_prop in H. destruct H as [H _].
  apply String.eqb_eq in H. split; [assumption|].
  intros c col Hin. rewrite forallb_forall in Hq. apply Hq in Hin.
  unfold quote_column in Hin. simpl in Hin.
  apply andb_prop in Hin. destruct Hin as [Hin _].
  now apply andb_prop in Hin.
Qed.

Lemma quote_table_codes df c :
  is_quote_table df = true -> In c (labels df) -> currency_code c = true.
Proof.
  intros Hq. unfold labels. destruct (columns df) as [|[id ids] quotes] eqn:E.
  - intros [].
  - destruct (quote_table_columns df id ids quotes Hq E) as [-> Hc].
    intros [<- | Hin]; [reflexivity|].
    apply in_keys_get in Hin. destruct Hin as [col [_ Hin]].
    now apply Hc in Hin.
Qed.

Lemma quote_table_prices df c :
  is_quote_table df = true -> In c (labels df) -> c <> "crypto" ->
  exists prices, getitem df c = Some prices /\ numeric prices = true.
Proof.
  intros Hq. unfold labels, getitem.
  destruct (columns df) as [|[id ids] quotes] eqn:E.
  - intros [].
  - destruct (quote_table_columns df id ids quotes Hq E) as [-> Hc].
    intros [Hc' | Hin] Hne; [now symmetry in Hc'|].
    simpl. apply String.eqb_neq in Hne. rewrite Hne.
    apply in_keys_get in Hin. destruct Hin as [col [Hget Hin]].
    exists col. split; [assumption|]. now apply Hc in Hin.
Qed.

(** The base column of a frame of [extract] is a column of prices under a
    currency code. *)
Lemma quote_table_base df base :
  is_quote_table df = true -> find_pkr (labels df) = Some base ->
  currency_code base = true /\
  exists prices, getitem df base = Some prices /\ numeric prices = true.
Proof.
  intros Hq Hf. apply find_some in Hf. destruct Hf as [Hin Hp]. split.
  - now apply (quote_table_codes df).
  - apply quote_table_prices; try assumption.
    intros ->. discriminate Hp.
Qed.

Lemma code_not_assigned c prices rates :
  currency_code c = true -> ~ In c (keys (assignments prices rates)).
Proof.
  intros Hc Hin. apply keys_assignments, in_map_iff in Hin.
  destruct Hin as [k [<- _]]. now rewrite new_col_not_code in Hc.
Qed.

Lemma quote_table_no_col df name :
  is_quote_table df = true -> currency_code name = false ->
  assoc_get name (columns df) = None.
Proof.
  intros Hq Hn. apply assoc_get_none. intros Hin.
  apply (quote_table_codes df) in Hin; congruence.
Qed.

(** ** The conversion on a frame of [extract] *)

Lemma transform_on_quotes env path w raw rates base :
  is_quote_table (frame w) = true ->
  df_empty (frame w) = false ->
  files env path = Some (ReadOk raw) ->
  lower_keys [] raw = Ok rates ->
  find_pkr (labels (frame w)) = Some base ->
  exists prices,
    getitem (frame w) base = Some prices /\ numeric prices = true /\
    ~ In base (keys (assignments prices rates)) /\
    transform env path w
    = (Ok tt,
       {| frame :=
            setitem_scalar
              {| nrows := nrows (frame w);
                 columns := assign_all (assignments prices rates)
                              (columns (frame w)) |}
              "last_updated" (stamp env);
          log := log w ++ "Transform: started"
                   :: warnings rates ++ ["Transform: completed"];
          store := store w |}).
Proof.
  intros Hq He Hf Hk Hp.
  destruct (quote_table_base _ _ Hq Hp) as [Hc [prices [Hget Hnum]]].
  exists prices. repeat split; try assumption.
  - now apply code_not_assigned.
  - rewrite (transform_conversion env path w raw rates base He Hf Hk Hp).
    rewrite (conversion_spec env base prices rates); try assumption.
    + simpl. now rewrite <- app_assoc.
    + now apply code_not_assigned.
Qed.

Lemma assigned_key prices rates k :
  In k (keys (assignments prices rates)) ->
  exists cur v r, In (cur, v) rates /\ py_float v = Ok r /\ k = new_col cur.
Proof.
  induction rates as [|[cur v] rates IH]; simpl; [easy|].
  unfold keys in *. rewrite map_app, in_app_iff. intros [H | H].
  - destruct (py_float v) as [r|e] eqn:E; simpl in H; [|easy].
    destruct H as [<- | []]. exists cur, v, r. auto.
  - destruct (IH H) as [c [v' [r [Hin [Hr Hk]]]]]. exists c, v', r. auto.
Qed.

Lemma assoc_get_app_l {V} k (v : V) l e :
  assoc_get k l = Some v -> assoc_get k (l ++ e) = Some v.
Proof.
  induction l as [|[k' v'] l IH]; simpl; [discriminate|].
  destruct (String.eqb k k'); auto.
Qed.

(** The columns of the result, laid out: those of the input, then the
    derived ones, then the stamp. *)
Lemma quotes_then_derived df prices rates (value : Obj) :
  is_quote_table df = true ->
  columns
    (setitem_scalar
       {| nrows := nrows df;
          columns := assign_all (assignments prices rates) (columns df) |}
       "last_updated" value)
  = columns df ++ assign_all (assignments prices rates) []
      ++ [("last_updated", ObjCol (repeat value (nrows df)))].
Proof.
  intros Hq. unfold setitem_scalar, setitem. simpl.
  rewrite <- (app_nil_r (columns df)) at 1.
  rewrite assign_all_app_r.
  - rewrite assoc_set_app_r by now apply quote_table_no_col.
    f_equal. apply assoc_set_absent, assoc_get_none. intros Hin.
    apply keys_assign_all in Hin. destruct Hin as [[] | Hin].
    apply assigned_key in Hin. destruct Hin as [cur [_ [_ [_ [_ E]]]]].
    symmetry in E. now apply new_col_not_stamp in E.
  - intros k Hin. apply quote_table_no_col; [assumption|].
    apply assigned_key in Hin. destruct Hin as [cur [_ [_ [_ [_ ->]]]]].
    apply new_col_not_code.
Qed.



Lemma assignments_none prices rates :
  (forall cur v, In (cur, v) rates -> exists e, py_float v = Raise e) ->
  assignments prices rates = [].
Proof.
  induction rates as [|[cur v] rates IH]; intros H; [reflexivity|].
  rewrite assignments_cons, IH by (intros c v' Hin; apply (H c); now right).
  unfold assignments. simpl. destruct (H cur v (or_introl eq_refl)) as [e ->].
  reflexivity.
Qed.

(** ** The time stamp *)

Lemma digit_cases (n : N) :
  exists k, (k < 10)%nat /\ Datetime.digit n = ascii_of_nat (48 + k).
Proof.
  unfold Datetime.digit. exists (N.to_nat (n mod 10)). split.
  - pose proof (N.mod_upper_bound n 10). lia.
  - unfold ascii_of_nat. f_equal. lia.
Qed.

Lemma digit_is_digit n : Str.is_digit (Datetime.digit n) = true.
Proof.
  destruct (digit_cases n) as [k [Hk ->]].
  do 10 (destruct k as [|k]; [reflexivity|]). lia.
Qed.

Lemma digit_not_sign n : Datetime.is_sign (Datetime.digit n) = false.
Proof.
  destruct (digit_cases n) as [k [Hk ->]].
  do 10 (destruct k as [|k]; [reflexivity|]). lia.
Qed.

Lemma isoformat_is_iso8601 dt :
  Datetime.is_iso8601 (Datetime.isoformat dt) = true.
Proof.
  unfold Datetime.is_iso8601, Datetime.isoformat.
  rewrite list_ascii_of_string_of_list_ascii.
  destruct dt as [[y mo d h mi s us] tz]. cbn [Datetime.wall Datetime.tzinfo
    Datetime.year Datetime.month Datetime.day Datetime.hour Datetime.minute
    Datetime.second Datetime.microsecond].
  unfold Datetime.d4, Datetime.d2. cbn [app].
  unfold Datetime.all_digits. cbn [forallb].
  rewrite !digit_is_digit. cbn [andb Ascii.eqb Bool.eqb].
  destruct (N.eqb us 0); destruct tz as [[]|]; cbn [app];
    unfold Datetime.is_tail, Datetime.d6; cbn [Ascii.eqb Bool.eqb app firstn skipn];
    unfold Datetime.all_digits; cbn [forallb List.length Nat.eqb];
    rewrite ?digit_is_digit; reflexivity.
Qed.

Lemma aware_has_offset w z :
  Datetime.has_offset
    (Datetime.isoformat {| Datetime.wall := w; Datetime.tzinfo := Some z |})
  = true.
Proof.
  unfold Datetime.has_offset, Datetime.isoformat.
  rewrite list_ascii_of_string_of_list_ascii.
  destruct w as [y mo d h mi s us]. destruct z.
  cbn [Datetime.wall Datetime.tzinfo Datetime.year Datetime.month
       Datetime.day Datetime.hour Datetime.minute Datetime.second
       Datetime.microsecond].
  unfold Datetime.d4, Datetime.d2, Datetime.d6.
  destruct (N.eqb us 0); reflexivity.
Qed.

Lemma naive_has_no_offset w :
  Datetime.has_offset
    (Datetime.isoformat {| Datetime.wall := w; Datetime.tzinfo := None |})
  = false.
Proof.
  unfold Datetime.has_offset, Datetime.isoformat.
  rewrite list_ascii_of_string_of_list_ascii.
  destruct w as [y mo d h mi s us].
  cbn [Datetime.wall Datetime.tzinfo Datetime.year Datetime.month
       Datetime.day Datetime.hour Datetime.minute Datetime.second
       Datetime.microsecond].
  unfold Datetime.d4, Datetime.d2, Datetime.d6.
  destruct (N.eqb us 0); cbn [app List.length Nat.sub skipn];
    unfold Datetime.is_offset; [reflexivity|].
  now rewrite digit_not_sign.
Qed.

(** ** The program by example *)

(** One quote and the rate [usd: 0.0036]. *)
Example bitcoin_in_dollars :
  transform (sample_env true (Some usd_rates) (ApiFails "timeout"))
    EXCHANGE_CSV (world_of bitcoin_frame)
  = (Ok tt,
     {| frame :=
          {| nrows := 1;
             columns :=
               [("crypto", ObjCol [OStr "bitcoin"]);
                ("pkr", IntCol [1000000%Z]);
                ("price_in_USD", FloatCol [3600%float]);
                ("last_updated", ObjCol [OStr "2025-03-09T14:05:07+05:00"])] |};
        log := ["Transform: started"; "Transform: completed"];
        store := [] |}).
Proof. reflexivity. Qed.

(** The rates [usd: "abc", eur: 0.0033]: only [price_in_EUR] appears. *)
Example bitcoin_in_euros_only :
  transform (sample_env true (Some mixed_rates) (ApiFails "timeout"))
    EXCHANGE_CSV (world_of bitcoin_frame)
  = (Ok tt,
     {| frame :=
          {| nrows := 1;
             columns :=
               [("crypto", ObjCol [OStr "bitcoin"]);
                ("pkr", IntCol [1000000%Z]);
                ("price_in_EUR", FloatCol [3300%float]);
                ("last_updated", ObjCol [OStr "2025-03-09T14:05:07+05:00"])] |};
        log := ["Transform: started";
                "Transform: skipping invalid rate for usd";
                "Transform: completed"];
        store := [] |}).
Proof. reflexivity. Qed.

(** A whole run: the table of the reply, converted, is the one stored. *)
Example run_etl_stores_the_table :
  let env := sample_env true (Some usd_rates) (ApiFrame bitcoin_frame) in
  let w := snd (run_etl env (world_of empty_frame)) in
  fst (run_etl env (world_of empty_frame)) = Ok tt /\
  store w = [(store_key DB_NAME TABLE_NAME, frame w)] /\
  labels (frame w) = ["crypto"; "pkr"; "price_in_USD"; "last_updated"].
Proof. repeat split; reflexivity. Qed.

(** A failed request: the run ends with an empty table and stores nothing. *)
Example run_etl_without_reply :
  run_etl (sample_env true (Some usd_rates) (ApiFails "timeout"))
    (world_of empty_frame)
  = (Ok tt,
     {| frame := empty_frame;
        log := ["Extract: started"; "Extract: failed - timeout";
                "Transform: started"; "Transform: aborted (empty DataFrame)";
                "Load: started"; "Load: aborted (empty DataFrame)"];
        store := [] |}).
Proof. reflexivity. Qed.

(** ** Returning and raising *)

Lemma lower_keys_non_text acc raw :
  (exists k v, In (k, v) raw /\ forall s, k <> KStr s) ->
  lower_keys acc raw = Raise AttributeError.
Proof.
  revert acc. induction raw as [|[k v] raw IH]; intros acc [k0 [v0 [Hin Hk]]].
  - destruct Hin.
  - simpl. destruct k as [s| | |]; simpl; try reflexivity.
    apply IH. destruct Hin as [[= <- <-] | Hin]; [|eauto].
    now destruct (Hk s).
Qed.

(** A key of the rate file that is no text makes [transform] raise, on
    every frame that is not empty. *)
Lemma transform_raises_on_non_text_key env path w raw :
  df_empty (frame w) = false ->
  files env path = Some (ReadOk raw) ->
  (exists k v, In (k, v) raw /\ forall s, k <> KStr s) ->
  transform env path w
  = (Raise AttributeError, logged w ["Transform: started"]).
Proof.
  intros He Hf Hk. apply (transform_bad_key env path w raw); try assumption.
  now apply lower_keys_non_text.
Qed.

(** With text keys in the rate file, [transform] returns on every frame
    of [extract]. *)
Lemma transform_returns_on_text_keys env path w :
  is_quote_table (frame w) = true ->
  (forall raw, files env path = Some (ReadOk raw) ->
     exists rates, lower_keys [] raw = Ok rates) ->
  exists w', transform env path w = (Ok tt, w') /\ store w' = store w.
Proof.
  intros Hq Hkeys. destruct (df_empty (frame w)) eqn:He.
  { rewrite (transform_empty env path w He). eauto. }
  destruct (files env path) as [[e|raw]|] eqn:Hf.
  - rewrite (transform_unreadable env path w e He Hf). eauto.
  - destruct (Hkeys raw eq_refl) as [rates Hk].
    destruct (find_pkr (labels (frame w))) as [base|] eqn:Hp.
    + destruct (transform_on_quotes env path w raw rates base Hq He Hf Hk Hp)
        as [prices [_ [_ [_ Hrun]]]].
      rewrite Hrun. eauto.
    + rewrite (transform_no_pkr env path w raw rates He Hf Hk Hp). eauto.
  - rewrite (transform_missing env path w He Hf). eauto.
Qed.

(** ** Running [transform] again *)

Lemma df_empty_setitem df name col :
  df_empty df = false -> df_empty (setitem df name col) = false.
Proof.
  unfold df_empty, setitem. simpl. intros H. apply orb_false_elim in H.
  destruct H as [-> _]. simpl.
  pose proof (assoc_set_not_nil name col (columns df)).
  now destruct (assoc_set name col (columns df)).
Qed.

Lemma not_assigned_stamp prices rates :
  ~ In "last_updated" (keys (assignments prices rates)).
Proof.
  intros Hin. apply assigned_key in Hin.
  destruct Hin as [cur [_ [_ [_ [_ E]]]]]. symmetry in E.
  now apply new_col_not_stamp in E.
Qed.

(** Two runs over the same rates leave the same columns, the stamp apart. *)
Lemma without_stamp_again prices rates cols (s1 s2 : Series) :
  NoDup (keys (assignments prices rates)) ->
  assoc_del "last_updated"
    (assoc_set "last_updated" s2
       (assign_all (assignments prices rates)
          (assoc_set "last_updated" s1
             (assign_all (assignments prices rates) cols))))
  = assoc_del "last_updated"
      (assoc_set "last_updated" s1
         (assign_all (assignments prices rates) cols)).
Proof.
  intros Hnd. rewrite !assoc_del_set_same.
  rewrite !del_assign_all by apply not_assigned_stamp.
  rewrite assoc_del_set_same.
  rewrite del_assign_all by apply not_assigned_stamp.
  now apply assign_all_idem.
Qed.

(** * The claims *)



(** C2: a rate file whose first column reads as numbers makes [transform]
    raise: lowercasing the keys fails outside every handler, and the
    exception leaves [transform] and [run_etl]. *)
Theorem numbered_rates_raise :
  transform (sample_env true (Some numbered_rates) (ApiFrame bitcoin_frame))
    EXCHANGE_CSV (world_of bitcoin_frame)
  = (Raise AttributeError, logged (world_of bitcoin_frame) ["Transform: started"])
  /\ fst (run_etl (sample_env true (Some numbered_rates) (ApiFrame bitcoin_frame))
            (world_of empty_frame))
     = Raise AttributeError.
Proof. split; reflexivity. Qed.

(** C3: on a table with zero rows [transform] returns the table as it is
    (the world only gains two lines of log), and [load_to_sqlite] logs that
    it aborted and leaves the database as it was. *)
Theorem empty_table_passes_through env w :
  nrows (frame w) = 0 ->
  (forall path,
     transform env path w
     = (Ok tt, logged w ["Transform: started";
                         "Transform: aborted (empty DataFrame)"])) /\
  (forall db_name table_name,
     load_to_sqlite env db_name table_name w
     = (Ok tt, logged w ["Load: started"; "Load: aborted (empty DataFrame)"]))
  /\ frame (logged w ["Load: started"; "Load: aborted (empty DataFrame)"])
     = frame w
  /\ store (logged w ["Load: started"; "Load: aborted (empty DataFrame)"])
     = store w.
Proof.
  intros Hn.
  assert (He : df_empty (frame w) = true) by (unfold df_empty; now rewrite Hn).
  split; [|split; [|split; reflexivity]].
  - intros path. now apply transform_empty.
  - intros db_name table_name. unfold load_to_sqlite. run. rewrite He. run.
    unfold logged. now rewrite <- app_assoc.
Qed.

Lemma empty_table_passes_through_witness :
  transform (sample_env true (Some usd_rates) (ApiFails "timeout"))
    EXCHANGE_CSV (stored_world empty_frame)
  = (Ok tt, logged (stored_world empty_frame)
              ["Transform: started"; "Transform: aborted (empty DataFrame)"])
  /\ store (snd (load_to_sqlite
                   (sample_env true (Some usd_rates) (ApiFails "timeout"))
                   DB_NAME TABLE_NAME (stored_world empty_frame)))
     = [(store_key DB_NAME TABLE_NAME, bitcoin_frame)].
Proof.
  destruct (empty_table_passes_through
              (sample_env true (Some usd_rates) (ApiFails "timeout"))
              (stored_world empty_frame) eq_refl) as [Ht [Hl _]].
  split; [apply Ht | now rewrite Hl].
Defined.

(** C4: on a table that is not empty, when the rate file is missing or
    cannot be read [transform] returns the table exactly as it was: the
    frame is the input frame, so no [price_in_*] column and no
    [last_updated] column was added; the world only gains two lines of
    log. *)
Theorem missing_rates_pass_through env path w :
  df_empty (frame w) = false ->
  files env path = None \/ (exists e, files env path = Some (ReadFails e)) ->
  (exists line,
     transform env path w = (Ok tt, logged w ["Transform: started"; line]))
  /\ frame (snd (transform env path w)) = frame w.
Proof.
  intros He [Hf | [e Hf]].
  - rewrite (transform_missing env path w He Hf). split; [eauto | reflexivity].
  - rewrite (transform_unreadable env path w e He Hf).
    split; [eauto | reflexivity].
Qed.

Lemma missing_rates_pass_through_witness :
  frame (snd (transform (sample_env true None (ApiFails "timeout"))
                EXCHANGE_CSV (world_of bitcoin_frame)))
  = bitcoin_frame.
Proof.
  apply (missing_rates_pass_through
           (sample_env true None (ApiFails "timeout"))
           EXCHANGE_CSV (world_of bitcoin_frame) eq_refl).
  left. reflexivity.
Defined.



(** C6: on a frame that is not empty and with a rate table that loads,
    the base column [transform] converts from is a label of the frame whose
    lowercased name is [pkr] or contains [pkr] (the first such label); when
    no label contains [pkr] in any case, [transform] returns the frame
    unchanged. *)
Theorem base_column_choice env path w raw rates :
  df_empty (frame w) = false ->
  files env path = Some (ReadOk raw) ->
  lower_keys [] raw = Ok rates ->
  match find_pkr (labels (frame w)) with
  | Some base =>
      In base (labels (frame w)) /\
      (Str.lower base = "pkr" \/ Str.contains "pkr" (Str.lower base) = true) /\
      transform env path w
      = conversion env base rates (logged w ["Transform: started"])
  | None =>
      forall c, In c (labels (frame w)) ->
        Str.contains "pkr" (Str.lower c) = false
  end /\
  ((forall c, In c (labels (frame w)) ->
      Str.contains "pkr" (Str.lower c) = false) ->
   transform env path w
   = (Ok tt, logged w ["Transform: started";
                       "Transform: PKR column not found in DataFrame"])).
Proof.
  intros He Hf Hk.
  assert (Hsome : forall base, find_pkr (labels (frame w)) = Some base ->
            In base (labels (frame w)) /\
            (Str.lower base = "pkr" \/
             Str.contains "pkr" (Str.lower base) = true)).
  { intros base Hp. apply find_some in Hp. destruct Hp as [Hin Hp].
    split; [assumption|]. unfold is_pkr in Hp. apply orb_prop in Hp.
    destruct Hp as [Hp | Hp]; [left; now apply String.eqb_eq | now right]. }
  split.
  - destruct (find_pkr (labels (frame w))) as [base|] eqn:Hp.
    + destruct (Hsome base eq_refl) as [Hin Hor]. repeat split; try assumption.
      now apply (transform_conversion env path w raw rates base).
    + intros c Hin. pose proof (find_none _ _ Hp c Hin) as Hc.
      unfold is_pkr in Hc. now apply orb_false_elim in Hc.
  - intros Hall. apply (transform_no_pkr env path w raw rates); try assumption.
    destruct (find_pkr (labels (frame w))) as [base|] eqn:Hp; [|reflexivity].
    destruct (Hsome base eq_refl) as [Hin [Hl | Hc]].
    + specialize (Hall base Hin). rewrite Hl in Hall. discriminate Hall.
    + rewrite (Hall base Hin) in Hc. discriminate Hc.
Qed.

Lemma base_column_choice_witness :
  In "pkr" (labels bitcoin_frame) /\
  (Str.lower "pkr" = "pkr" \/ Str.contains "pkr" (Str.lower "pkr") = true) /\
  transform (sample_env true (Some usd_rates) (ApiFails "timeout"))
    EXCHANGE_CSV (world_of bitcoin_frame)
  = conversion (sample_env true (Some usd_rates) (ApiFails "timeout"))
      "pkr" [("usd", VFloat 0.0036%float)]
      (logged (world_of bitcoin_frame) ["Transform: started"]).
Proof.
  exact (proj1 (base_column_choice
                  (sample_env true (Some usd_rates) (ApiFails "timeout"))
                  EXCHANGE_CSV (world_of bitcoin_frame)
                  [(KStr "USD", VFloat 0.0036%float)]
                  [("usd", VFloat 0.0036%float)]
                  eq_refl eq_refl eq_refl)).
Defined.

(** C7: on a frame of [extract], a second run of [transform] on the frame
    the first run left, with the same rate file, ends as the first did and
    leaves the same frame in every column but [last_updated]. *)
Theorem transform_twice env1 env2 path w :
  is_quote_table (frame w) = true ->
  files env1 path = files env2 path ->
  fst (transform env2 path (snd (transform env1 path w)))
  = fst (transform env1 path w) /\
  without "last_updated"
    (frame (snd (transform env2 path (snd (transform env1 path w)))))
  = without "last_updated" (frame (snd (transform env1 path w))).
Proof.
  intros Hq Hfiles.
  destruct (df_empty (frame w)) eqn:He.
  { rewrite (transform_empty env1 path w He). cbn [snd fst].
    set (w1 := logged w _). now rewrite (transform_empty env2 path w1 He). }
  destruct (files env1 path) as [[e|raw]|] eqn:Hf; symmetry in Hfiles.
  - rewrite (transform_unreadable env1 path w e He Hf). cbn [snd fst].
    set (w1 := logged w _).
    now rewrite (transform_unreadable env2 path w1 e He Hfiles).
  - destruct (lower_keys [] raw) as [rates|e] eqn:Hk.
    + destruct (find_pkr (labels (frame w))) as [base|] eqn:Hp.
      * destruct (transform_on_quotes env1 path w raw rates base
                    Hq He Hf Hk Hp) as [prices [Hget [Hnum [Hbase Hrun]]]].
        destruct (quote_table_base _ _ Hq Hp) as [Hcode _].
        rewrite Hrun. cbn [snd fst].
        set (w1 := {| frame := _ |}).
        assert (He1 : df_empty (frame w1) = false).
        { unfold w1, setitem_scalar. cbn [frame].
          apply df_empty_setitem. unfold df_empty in *. cbn [nrows columns].
          apply orb_false_elim in He. destruct He as [-> Hc]. simpl.
          pose proof (assign_all_not_nil (assignments prices rates)
                        (columns (frame w))) as Hnil.
          destruct (assign_all (assignments prices rates) (columns (frame w)));
            [|reflexivity].
          exfalso. apply Hnil; [|reflexivity].
          intros E. rewrite E in Hc. discriminate Hc. }
        assert (Hp1 : find_pkr (labels (frame w1)) = Some base).
        { unfold w1, labels, setitem_scalar, setitem. cbn [frame columns].
          now apply find_keys_assoc_set, find_keys_assign_all. }
        assert (Hget1 : getitem (frame (logged w1 ["Transform: started"])) base
                        = Some prices).
        { unfold w1, getitem, setitem_scalar, setitem. cbn [frame columns logged].
          rewrite assoc_get_set_other by (intros ->; discriminate Hcode).
          now rewrite get_assign_all_out. }
        rewrite (transform_conversion env2 path w1 raw rates base
                   He1 Hfiles Hk Hp1).
        rewrite (conversion_spec env2 base prices rates _ Hget1 Hnum Hbase).
        cbn [snd fst frame logged]. split; [reflexivity|].
        unfold without, w1, setitem_scalar, setitem.
        cbn [frame nrows columns]. f_equal.
        apply without_stamp_again, assignments_nodup.
        now apply (rate_names_nodup raw).
      * rewrite (transform_no_pkr env1 path w raw rates He Hf Hk Hp).
        cbn [snd fst]. set (w1 := logged w _).
        now rewrite (transform_no_pkr env2 path w1 raw rates He Hfiles Hk Hp).
    + rewrite (transform_bad_key env1 path w raw e He Hf Hk). cbn [snd fst].
      set (w1 := logged w _).
      now rewrite (transform_bad_key env2 path w1 raw e He Hfiles Hk).
  - rewrite (transform_missing env1 path w He Hf). cbn [snd fst].
    set (w1 := logged w _).
    now rewrite (transform_missing env2 path w1 He Hfiles).
Qed.

Lemma transform_twice_witness :
  fst (transform (sample_env false (Some mixed_rates) (ApiFails "timeout"))
         EXCHANGE_CSV
         (snd (transform (sample_env true (Some mixed_rates) (ApiFails "timeout"))
                 EXCHANGE_CSV (world_of bitcoin_frame))))
  = fst (transform (sample_env true (Some mixed_rates) (ApiFails "timeout"))
           EXCHANGE_CSV (world_of bitcoin_frame)) /\
  without "last_updated"
    (frame
       (snd (transform (sample_env false (Some mixed_rates) (ApiFails "timeout"))
               EXCHANGE_CSV
               (snd (transform
                       (sample_env true (Some mixed_rates) (ApiFails "timeout"))
                       EXCHANGE_CSV (world_of bitcoin_frame))))))
  = without "last_updated"
      (frame (snd (transform
                     (sample_env true (Some mixed_rates) (ApiFails "timeout"))
                     EXCHANGE_CSV (world_of bitcoin_frame)))).
Proof.
  exact (transform_twice
           (sample_env true (Some mixed_rates) (ApiFails "timeout"))
           (sample_env false (Some mixed_rates) (ApiFails "timeout"))
           EXCHANGE_CSV (world_of bitcoin_frame) eq_refl eq_refl).
Defined.


(** C8: on a frame of [extract] that is not empty, when [transform]
    converts, the columns of the result are the columns of the input, in
    their order and with their values, followed by the new ones; every
    column of the input is read back unchanged. *)
Theorem existing_columns_kept env path w raw rates base :
  is_quote_table (frame w) = true ->
  df_empty (frame w) = false ->
  files env path = Some (ReadOk raw) ->
  lower_keys [] raw = Ok rates ->
  find_pkr (labels (frame w)) = Some base ->
  exists w' added,
    transform env path w = (Ok tt, w') /\
    nrows (frame w') = nrows (frame w) /\
    columns (frame w') = columns (frame w) ++ added /\
    forall name col,
      getitem (frame w) name = Some col -> getitem (frame w') name = Some col.
Proof.
  intros Hq He Hf Hk Hp.
  destruct (transform_on_quotes env path w raw rates base Hq He Hf Hk Hp)
    as [prices [_ [_ [_ Hrun]]]].
  pose proof (quotes_then_derived (frame w) prices rates (stamp env) Hq) as Hc.
  eexists. eexists. split; [exact Hrun|]. split; [reflexivity|].
  split; [exact Hc|].
  intros name col Hget. unfold getitem in *. cbn [frame]. rewrite Hc.
  now apply assoc_get_app_l.
Qed.

Lemma existing_columns_kept_witness :
  exists w' added,
    transform (sample_env true (Some usd_rates) (ApiFails "timeout"))
      EXCHANGE_CSV (world_of bitcoin_frame) = (Ok tt, w') /\
    nrows (frame w') = 1 /\
    columns (frame w') = columns bitcoin_frame ++ added /\
    forall name col,
      getitem bitcoin_frame name = Some col ->
      getitem (frame w') name = Some col.
Proof.
  exact (existing_columns_kept
           (sample_env true (Some usd_rates) (ApiFails "timeout"))
           EXCHANGE_CSV (world_of bitcoin_frame)
           [(KStr "USD", VFloat 0.0036%float)] [("usd", VFloat 0.0036%float)]
           "pkr" eq_refl eq_refl eq_refl eq_refl eq_refl).
Defined.

(** C9, as the code has it: past its checks and on a numeric base column
    [transform] returns a frame whose [last_updated] column holds, on every
    row, one ISO-8601 text of the time of the call; the time is that of
    Asia/Karachi, written with its offset from UTC, when [zoneinfo] is
    available, and otherwise the machine's local time with no offset. *)
Theorem last_updated_stamp env path w raw rates base prices :
  df_empty (frame w) = false ->
  files env path = Some (ReadOk raw) ->
  lower_keys [] raw = Ok rates ->
  find_pkr (labels (frame w)) = Some base ->
  getitem (frame w) base = Some prices ->
  numeric prices = true ->
  exists w',
    transform env path w = (Ok tt, w') /\
    getitem (frame w') "last_updated"
    = Some (ObjCol (repeat (OStr (Datetime.isoformat (last_updated env)))
                      (nrows (frame w')))) /\
    Datetime.is_iso8601 (Datetime.isoformat (last_updated env)) = true /\
    (ZoneInfo env = true ->
       Datetime.tzinfo (last_updated env) = Some Datetime.AsiaKarachi /\
       Datetime.has_offset (Datetime.isoformat (last_updated env)) = true) /\
    (ZoneInfo env = false ->
       Datetime.tzinfo (last_updated env) = None /\
       Datetime.has_offset (Datetime.isoformat (last_updated env)) = false).
Proof.
  intros He Hf Hk Hp Hget Hnum.
  rewrite (transform_conversion env path w raw rates base He Hf Hk Hp).
  destruct (conversion_runs env base prices rates
              (logged w ["Transform: started"]) Hget Hnum)
    as [w' [Hrun [Hn [_ Hstamp]]]].
  exists w'. split; [exact Hrun|]. split; [|split; [|split]].
  - rewrite Hstamp, Hn. reflexivity.
  - apply isoformat_is_iso8601.
  - intros Hz. unfold last_updated. rewrite Hz. split; [reflexivity|].
    apply aware_has_offset.
  - intros Hz. unfold last_updated. rewrite Hz. split; [reflexivity|].
    apply naive_has_no_offset.
Qed.

Lemma last_updated_stamp_witness :
  exists w',
    transform (sample_env true (Some usd_rates) (ApiFails "timeout"))
      EXCHANGE_CSV (world_of bitcoin_frame) = (Ok tt, w') /\
    getitem (frame w') "last_updated"
    = Some (ObjCol (repeat (OStr "2025-03-09T14:05:07+05:00")
                      (nrows (frame w')))) /\
    Datetime.is_iso8601 "2025-03-09T14:05:07+05:00" = true /\
    (true = true ->
       Some Datetime.AsiaKarachi = Some Datetime.AsiaKarachi /\
       Datetime.has_offset "2025-03-09T14:05:07+05:00" = true) /\
    (true = false ->
       Some Datetime.AsiaKarachi = None /\
       Datetime.has_offset "2025-03-09T14:05:07+05:00" = false).
Proof.
  exact (last_updated_stamp
           (sample_env true (Some usd_rates) (ApiFails "timeout"))
           EXCHANGE_CSV (world_of bitcoin_frame)
           [(KStr "USD", VFloat 0.0036%float)] [("usd", VFloat 0.0036%float)]
           "pkr" (IntCol [1000000%Z])
           eq_refl eq_refl eq_refl eq_refl eq_refl eq_refl).
Defined.

(** C9, as the specification states it, fails without [zoneinfo]:
    [transform] passes its checks and returns, and the text it writes has no
    offset from UTC, so it is tied to no zone. *)
Lemma naive_stamp_has_no_zone :
  fst (transform (sample_env false (Some usd_rates) (ApiFails "timeout"))
         EXCHANGE_CSV (world_of bitcoin_frame)) = Ok tt /\
  getitem
    (frame (snd (transform
                   (sample_env false (Some usd_rates) (ApiFails "timeout"))
                   EXCHANGE_CSV (world_of bitcoin_frame))))
    "last_updated"
  = Some (ObjCol [OStr "2025-03-09T14:05:07"]) /\
  ~ zoned_stamp
      (frame (snd (transform
                     (sample_env false (Some usd_rates) (ApiFails "timeout"))
                     EXCHANGE_CSV (world_of bitcoin_frame)))).
Proof.
  split; [reflexivity|]. split; [reflexivity|].
  intros [s [Hget [_ Hoff]]].
  vm_compute in Hget. injection Hget as <-. discriminate Hoff.
Qed.

(** C10: on a frame of [extract] that is not empty and has a base-currency
    column, when the rate file loads and [float] rejects every multiplier,
    [transform] still stamps the frame: the result is the input with one
    more column, [last_updated], and no [price_in_*] column. *)
Theorem unparsable_rates_only_stamp env path w raw rates base :
  is_quote_table (frame w) = true ->
  df_empty (frame w) = false ->
  files env path = Some (ReadOk raw) ->
  lower_keys [] raw = Ok rates ->
  find_pkr (labels (frame w)) = Some base ->
  (forall cur v, In (cur, v) rates -> exists e, py_float v = Raise e) ->
  getitem (frame w) "last_updated" = None /\
  transform env path w
  = (Ok tt,
     {| frame :=
          {| nrows := nrows (frame w);
             columns := columns (frame w)
               ++ [("last_updated",
                    ObjCol (repeat (stamp env) (nrows (frame w))))] |};
        log := log w ++ "Transform: started"
                 :: warnings rates ++ ["Transform: completed"];
        store := store w |}).
Proof.
  intros Hq He Hf Hk Hp Hbad.
  split; [exact (quote_table_no_col (frame w) "last_updated" Hq eq_refl)|].
  destruct (transform_on_quotes env path w raw rates base Hq He Hf Hk Hp)
    as [prices [_ [_ [_ Hrun]]]].
  rewrite Hrun. do 2 f_equal.
  pose proof (quotes_then_derived (frame w) prices rates (stamp env) Hq) as Hc.
  rewrite (assignments_none prices rates Hbad) in *.
  unfold setitem_scalar, setitem in *. simpl in *. now rewrite Hc.
Qed.

Lemma unparsable_rates_only_stamp_witness :
  getitem bitcoin_frame "last_updated" = None /\
  transform
    (sample_env false (Some (ReadOk [(KStr "USD", VStr "abc")]))
       (ApiFails "timeout"))
    EXCHANGE_CSV (world_of bitcoin_frame)
  = (Ok tt,
     {| frame :=
          {| nrows := 1;
             columns := columns bitcoin_frame
               ++ [("last_updated",
                    ObjCol [OStr "2025-03-09T14:05:07"])] |};
        log := ["Transform: started";
                "Transform: skipping invalid rate for usd";
                "Transform: completed"];
        store := [] |}).
Proof.
  refine (unparsable_rates_only_stamp
            (sample_env false (Some (ReadOk [(KStr "USD", VStr "abc")]))
               (ApiFails "timeout"))
            EXCHANGE_CSV (world_of bitcoin_frame)
            [(KStr "USD", VStr "abc")] [("usd", VStr "abc")] "pkr"
            eq_refl eq_refl eq_refl eq_refl eq_refl _).
  intros cur v [[= <- <-] | []]. exists ValueError. reflexivity.
Defined.

(** * Further properties *)

(** ** What [transform] keeps *)

Lemma grows_refl w : grows w w.
Proof.
  repeat split; try reflexivity; exists []; now rewrite app_nil_r.
Qed.

Lemma grows_trans w1 w2 w3 : grows w1 w2 -> grows w2 w3 -> grows w1 w3.
Proof.
  intros [Hn1 [Hs1 [[l1 Hl1] [a1 Ha1]]]] [Hn2 [Hs2 [[l2 Hl2] [a2 Ha2]]]].
  repeat split; try congruence.
  - exists (l1 ++ l2). now rewrite Hl2, Hl1, app_assoc.
  - exists (a1 ++ a2). now rewrite Ha2, Ha1, app_assoc.
Qed.

Lemma grows_logged w lines : grows w (logged w lines).
Proof.
  repeat split; simpl; eauto. exists []. now rewrite app_nil_r.
Qed.

Lemma grows_logged_more w line lines :
  grows (logged w [line]) (logged w (line :: lines)).
Proof.
  repeat split; simpl.
  - exists lines. now rewrite <- app_assoc.
  - exists []. now rewrite app_nil_r.
Qed.

Lemma grows_setitem w name col :
  grows w {| frame := setitem (frame w) name col; log := log w;
             store := store w |}.
Proof.
  repeat split; simpl.
  - exists []. now rewrite app_nil_r.
  - unfold labels. simpl. rewrite keys_assoc_set.
    destruct (assoc_get name (columns (frame w))).
    + exists []. now rewrite app_nil_r.
    + now exists [name].
Qed.

Lemma convert_entry_grows base entry w :
  grows w (snd (convert_entry base entry w)).
Proof.
  destruct entry as [cur v]. unfold convert_entry.
  destruct (py_float v) as [r|e].
  - run. destruct (getitem (frame w) base) as [col|]; run;
      [|apply grows_refl].
    destruct (scale r col) as [p|e]; run; [|apply grows_refl].
    apply grows_setitem.
  - apply (grows_logged w).
Qed.

Lemma for_each_grows base rates w :
  grows w (snd (for_each rates (convert_entry base) w)).
Proof.
  revert w. induction rates as [|entry rates IH]; intros w.
  - apply grows_refl.
  - rewrite for_each_cons.
    pose proof (convert_entry_grows base entry w) as H1.
    destruct (convert_entry base entry w) as [[[]|e] w1]; simpl in *.
    + exact (grows_trans _ _ _ H1 (IH w1)).
    + exact H1.
Qed.

Lemma conversion_grows env base rates w :
  grows w (snd (conversion env base rates w)).
Proof.
  unfold conversion. unfold bind at 1.
  pose proof (for_each_grows base rates w) as H1.
  destruct (for_each rates (convert_entry base) w) as [[[]|e] w1];
    simpl in *; [|exact H1].
  run. apply (grows_trans _ _ _ H1).
  set (col := ObjCol (repeat (stamp env) (nrows (frame w1)))).
  apply (grows_trans _ _ _ (grows_setitem w1 "last_updated" col)).
  apply (grows_logged
           {| frame := setitem (frame w1) "last_updated" col; log := log w1;
              store := store w1 |} ["Transform: completed"]).
Qed.

Lemma transform_grows env path w :
  grows (logged w ["Transform: started"]) (snd (transform env path w)).
Proof.
  destruct (df_empty (frame w)) eqn:He.
  { rewrite (transform_empty env path w He).
    apply grows_logged_more. }
  destruct (files env path) as [[e|raw]|] eqn:Hf.
  - rewrite (transform_unreadable env path w e He Hf).
    apply grows_logged_more.
  - destruct (lower_keys [] raw) as [rates|e] eqn:Hk.
    + destruct (find_pkr (labels (frame w))) as [base|] eqn:Hp.
      * rewrite (transform_conversion env path w raw rates base He Hf Hk Hp).
        apply conversion_grows.
      * rewrite (transform_no_pkr env path w raw rates He Hf Hk Hp).
        apply grows_logged_more.
    + rewrite (transform_bad_key env path w raw e He Hf Hk). apply grows_refl.
  - rewrite (transform_missing env path w He Hf).
    apply grows_logged_more.
Qed.

(** X1: whatever the frame, the rate file and the outcome (a return or an
    exception), [transform] keeps the number of rows, leaves the database
    alone, keeps every column label of the input in its place (new labels
    come after them) and only adds lines to the log, the first of them
    [Transform: started]. *)
Theorem transform_keeps_shape env path w :
  nrows (frame (snd (transform env path w))) = nrows (frame w) /\
  store (snd (transform env path w)) = store w /\
  (exists added,
     labels (frame (snd (transform env path w)))
     = labels (frame w) ++ added) /\
  (exists lines,
     log (snd (transform env path w))
     = log w ++ "Transform: started" :: lines).
Proof.
  destruct (transform_grows env path w) as [Hn [Hs [[l Hl] Ha]]].
  repeat split; try assumption.
  exists l. rewrite Hl. simpl. now rewrite <- app_assoc.
Qed.

(** ** A base column of text *)




(** ** The rows of the rate file *)








(** ** Loading *)

Lemma load_empty env db_name table_name w :
  df_empty (frame w) = true ->
  load_to_sqlite env db_name table_name w
  = (Ok tt, logged w ["Load: started"; "Load: aborted (empty DataFrame)"]).
Proof.
  intros He. unfold load_to_sqlite. run. rewrite He. run.
  unfold logged. now rewrite <- app_assoc.
Qed.

Lemma load_written env db_name table_name w :
  df_empty (frame w) = false ->
  sql_fault env (store w) = None ->
  load_to_sqlite env db_name table_name w
  = (Ok tt,
     {| frame := frame w;
        log := log w ++ ["Load: started";
                         ("Load: completed. Data written to " ++ db_name
                          ++ " -> " ++ table_name)%string];
        store := assoc_set (store_key db_name table_name) (frame w)
                   (store w) |}).
Proof.
  intros He Hs. unfold load_to_sqlite. run. rewrite He. run. rewrite Hs. run.
  now rewrite <- app_assoc.
Qed.

Lemma load_faulty env db_name table_name w e rest :
  df_empty (frame w) = false ->
  sql_fault env (store w) = Some (e, rest) ->
  load_to_sqlite env db_name table_name w
  = (Ok tt,
     {| frame := frame w;
        log := log w ++ ["Load: started"; ("Load: failed - " ++ e)%string];
        store := rest |}).
Proof.
  intros He Hs. unfold load_to_sqlite. run. rewrite He. run. rewrite Hs. run.
  now rewrite <- app_assoc.
Qed.

(** [load_to_sqlite] returns, with the frame it was given. *)
Lemma load_returns env db_name table_name w :
  fst (load_to_sqlite env db_name table_name w) = Ok tt /\
  frame (snd (load_to_sqlite env db_name table_name w)) = frame w.
Proof.
  destruct (df_empty (frame w)) eqn:He.
  - now rewrite load_empty.
  - destruct (sql_fault env (store w)) as [[e rest]|] eqn:Hs.
    + now rewrite (load_faulty env db_name table_name w e rest).
    + now rewrite load_written.
Qed.

(** ** The whole run *)

Lemma run_etl_steps env w :
  run_etl env w
  = match extract env w with
    | (Ok _, w1) =>
        match transform env EXCHANGE_CSV w1 with
        | (Ok _, w2) => load_to_sqlite env DB_NAME TABLE_NAME w2
        | (Raise e, w2) => (Raise e, w2)
        end
    | (Raise e, w1) => (Raise e, w1)
    end.
Proof. reflexivity. Qed.

Lemma extract_fails env w e :
  api env = ApiFails e ->
  extract env w
  = (Ok tt,
     {| frame := empty_frame;
        log := log w ++ ["Extract: started";
                         ("Extract: failed - " ++ e)%string];
        store := store w |}).
Proof.
  intros Ha. unfold extract. rewrite Ha. run. now rewrite <- app_assoc.
Qed.

Lemma extract_replies env w df :
  api env = ApiFrame df ->
  extract env w
  = (Ok tt,
     {| frame := df;
        log := log w ++ ["Extract: started";
                         "Extract: completed successfully"];
        store := store w |}).
Proof.
  intros Ha. unfold extract. rewrite Ha. run. now rewrite <- app_assoc.
Qed.

(** [extract] returns, with the frame of the reply or an empty one, and
    leaves the database alone. *)
Lemma extract_returns env w :
  exists w1,
    extract env w = (Ok tt, w1) /\ store w1 = store w /\
    frame w1 = match api env with
               | ApiFrame df => df
               | ApiFails _ => empty_frame
               end.
Proof.
  destruct (api env) as [e|df] eqn:Ha.
  - rewrite (extract_fails env w e Ha). eauto.
  - rewrite (extract_replies env w df Ha). eauto.
Qed.

Lemma transform_keeps_emptiness env path w :
  df_empty (frame (snd (transform env path w))) = df_empty (frame w).
Proof.
  destruct (df_empty (frame w)) eqn:He.
  - now rewrite (transform_empty env path w He).
  - destruct (transform_grows env path w) as [Hn [_ [_ [added Ha]]]].
    unfold df_empty in *. rewrite Hn. simpl in *.
    apply orb_false_elim in He. destruct He as [-> Hc]. simpl.
    unfold labels, keys in Ha.
    rewrite <- (length_map fst), Ha, length_app, length_map.
    destruct (List.length (columns (frame w))); [discriminate Hc | reflexivity].
Qed.

(** X4: when the request to the price service fails, whatever the rate
    file, the clock and the database, [run_etl] returns an empty table,
    logs the failure and the two stages that abort, and leaves the
    database as it was. *)
Theorem run_etl_failed_extract env w e :
  api env = ApiFails e ->
  run_etl env w
  = (Ok tt,
     {| frame := empty_frame;
        log := log w ++ ["Extract: started";
                         ("Extract: failed - " ++ e)%string;
                         "Transform: started";
                         "Transform: aborted (empty DataFrame)";
                         "Load: started";
                         "Load: aborted (empty DataFrame)"];
        store := store w |}).
Proof.
  intros Ha. rewrite run_etl_steps, (extract_fails env w e Ha).
  set (w1 := {| frame := empty_frame; log := _; store := _ |}).
  rewrite (transform_empty env EXCHANGE_CSV w1 eq_refl).
  set (w2 := logged w1 _).
  rewrite (load_empty env DB_NAME TABLE_NAME w2 eq_refl).
  unfold w2, w1, logged. simpl. now rewrite <- !app_assoc.
Qed.

Lemma run_etl_failed_extract_witness :
  run_etl (sample_env false (Some numbered_rates) (ApiFails "timeout"))
    (stored_world text_frame)
  = (Ok tt,
     {| frame := empty_frame;
        log := ["Extract: started"; "Extract: failed - timeout";
                "Transform: started"; "Transform: aborted (empty DataFrame)";
                "Load: started"; "Load: aborted (empty DataFrame)"];
        store := [(store_key DB_NAME TABLE_NAME, bitcoin_frame)] |}).
Proof.
  exact (run_etl_failed_extract
           (sample_env false (Some numbered_rates) (ApiFails "timeout"))
           (stored_world text_frame) "timeout" eq_refl).
Defined.

(** X5: an exception that leaves [run_etl] was raised by [transform], on
    the frame of [extract], and the load was never reached: the database
    is as it was before the run. *)
Theorem run_etl_raise_keeps_store env w e :
  fst (run_etl env w) = Raise e ->
  fst (transform env EXCHANGE_CSV (snd (extract env w))) = Raise e /\
  store (snd (run_etl env w)) = store w.
Proof.
  rewrite run_etl_steps.
  destruct (extract_returns env w) as [w1 [Hx [Hs1 _]]]. rewrite Hx.
  cbn [snd].
  pose proof (transform_grows env EXCHANGE_CSV w1) as [_ [Hs2 _]].
  cbn [logged store] in Hs2.
  destruct (transform env EXCHANGE_CSV w1) as [[[]|e'] w2]; cbn [fst snd] in *.
  - destruct (load_returns env DB_NAME TABLE_NAME w2) as [Hl _].
    rewrite Hl. discriminate.
  - intros [= ->]. split; [reflexivity | congruence].
Qed.

Lemma run_etl_raise_keeps_store_witness :
  fst (transform
         (sample_env true (Some numbered_rates) (ApiFrame bitcoin_frame))
         EXCHANGE_CSV
         (snd (extract
                 (sample_env true (Some numbered_rates) (ApiFrame bitcoin_frame))
                 (stored_world empty_frame))))
  = Raise AttributeError /\
  store (snd (run_etl
                (sample_env true (Some numbered_rates) (ApiFrame bitcoin_frame))
                (stored_world empty_frame)))
  = [(store_key DB_NAME TABLE_NAME, bitcoin_frame)].
Proof.
  exact (run_etl_raise_keeps_store
           (sample_env true (Some numbered_rates) (ApiFrame bitcoin_frame))
           (stored_world empty_frame) AttributeError eq_refl).
Defined.

(** X6: after a run that returns, the database holds under the configured
    names exactly the table the run returned, when that table is not empty
    and the database has no fault; when the table is empty the database is
    as it was before the run, fault or not. *)
Theorem run_etl_stores_what_it_returns env w :
  fst (run_etl env w) = Ok tt ->
  (df_empty (frame (snd (run_etl env w))) = true ->
   store (snd (run_etl env w)) = store w) /\
  (df_empty (frame (snd (run_etl env w))) = false ->
   sql_fault env (store w) = None ->
   store (snd (run_etl env w))
   = assoc_set (store_key DB_NAME TABLE_NAME) (frame (snd (run_etl env w)))
       (store w)).
Proof.
  rewrite run_etl_steps.
  destruct (extract_returns env w) as [w1 [Hx [Hs1 _]]]. rewrite Hx.
  pose proof (transform_grows env EXCHANGE_CSV w1) as [_ [Hs2 _]].
  cbn [logged store] in Hs2.
  destruct (transform env EXCHANGE_CSV w1) as [[[]|e'] w2]; cbn [fst snd] in *;
    [|discriminate].
  intros _. destruct (df_empty (frame w2)) eqn:He.
  - rewrite (load_empty env DB_NAME TABLE_NAME w2 He). simpl.
    split; [congruence|]. rewrite He. discriminate.
  - split.
    + destruct (load_returns env DB_NAME TABLE_NAME w2) as [_ Hf].
      rewrite Hf, He. discriminate.
    + intros _ Hs. assert (Hs' : sql_fault env (store w2) = None) by congruence.
      rewrite (load_written env DB_NAME TABLE_NAME w2 He Hs'). simpl.
      congruence.
Qed.

Lemma run_etl_stores_what_it_returns_witness :
  let env := sample_env true (Some usd_rates) (ApiFrame bitcoin_frame) in
  (df_empty (frame (snd (run_etl env (stored_world empty_frame)))) = true ->
   store (snd (run_etl env (stored_world empty_frame)))
   = store (stored_world empty_frame)) /\
  (df_empty (frame (snd (run_etl env (stored_world empty_frame)))) = false ->
   sql_fault env (store (stored_world empty_frame)) = None ->
   store (snd (run_etl env (stored_world empty_frame)))
   = assoc_set (store_key DB_NAME TABLE_NAME)
       (frame (snd (run_etl env (stored_world empty_frame))))
       (store (stored_world empty_frame))).
Proof.
  exact (run_etl_stores_what_it_returns
           (sample_env true (Some usd_rates) (ApiFrame bitcoin_frame))
           (stored_world empty_frame) eq_refl).
Defined.

(** ** The dashboard *)

(** X7: the report of the button [Run ETL now] depends on the reply of
    the price service alone: when the run returns, it reports success and
    the number of rows of the reply if the reply is a table that is not
    empty (also when the rate file is missing or the load failed), and a
    failure otherwise; an exception of the run leaves the handler. *)
Theorem run_button_reports env w :
  fst (run_button env w)
  = match fst (run_etl env w) with
    | Raise e => Raise e
    | Ok _ =>
        Ok (match api env with
            | ApiFrame df =>
                if df_empty df
                then [Failure "ETL run failed or returned no data!"]
                else [Success "ETL run completed"; Rows (nrows df)]
            | ApiFails _ => [Failure "ETL run failed or returned no data!"]
            end)
    end.
Proof.
  unfold run_button. unfold bind at 1. rewrite run_etl_steps.
  destruct (extract_returns env w) as [w1 [Hx [_ Hf1]]]. rewrite Hx.
  pose proof (transform_grows env EXCHANGE_CSV w1) as [Hn _].
  pose proof (transform_keeps_emptiness env EXCHANGE_CSV w1) as Hemp.
  cbn [logged frame] in Hn.
  destruct (transform env EXCHANGE_CSV w1) as [[[]|e] w2]; cbn [fst snd] in *;
    [|reflexivity].
  destruct (load_returns env DB_NAME TABLE_NAME w2) as [Hl Hfr].
  destruct (load_to_sqlite env DB_NAME TABLE_NAME w2) as [r w3].
  cbn [fst snd] in *. subst r. run. rewrite Hfr, Hemp, Hn, Hf1.
  destruct (api env) as [e|df]; reflexivity.
Qed.



(** ** The columns of the result *)




